(** * Minutron: time tracking over a row-level-secured store

    A shallow embedding of the schema and row-level-security policies of
    the Supabase migrations, and of the database calls made by
    [UserDashboard.tsx] and the admin dashboard.

    Tables are lists of rows, in insertion order.  A policy is a boolean
    function of the store, the caller ([auth.uid()], [None] when the request
    carries no session) and a row.  Each dashboard function is one statement
    sent to the store; it returns the new store, or the error the dashboard
    shows in its "destructive" toast. *)

From stdpp Require Import base decidable option list strings pretty gmap.
From Stdlib Require Import ZArith Lia Sorted.
From Stdlib Require QArith.QArith_base.

Local Open Scope Z_scope.

(** ** Column types *)

(** [UUID] columns, as the text the client sends and receives. *)
Definition uuid := string.

(** The canonical text of a uuid has 36 characters; only this length is
    used (for the keys of the admin summary). *)
Definition is_uuid (s : uuid) : Prop := String.length s = 36%nat.




(** [TIMESTAMP WITH TIME ZONE]: microseconds since the epoch. *)
Definition timestamptz := Z.

(** [CREATE TYPE public.app_role AS ENUM ('admin', 'user')] *)
Inductive app_role := admin | user.

#[global] Instance app_role_eq_dec : EqDecision app_role.
Proof. solve_decision. Defined.

(** What the store makes of a timestamp text sent by the client: a point in
    time, or a text it cannot read (the empty string of an untouched form
    field, for instance). *)
Inductive timestamptz_in :=
  | ts_ok (t : timestamptz)
  | ts_bad.

(** Errors of a statement, by SQLSTATE. *)
Inductive pg_error :=
  | invalid_datetime_format        (* 22007 *)
  | numeric_value_out_of_range     (* 22003 *)
  | insufficient_privilege         (* 42501: row-level security *)
  | not_null_violation             (* 23502 *)
  | unique_violation               (* 23505 *)
  | foreign_key_violation.         (* 23503 *)

Inductive pg_result (A : Type) :=
  | Ok (a : A)
  | Err (e : pg_error).
Arguments Ok {A} a.
Arguments Err {A} e.

Definition bind_result {A B} (r : pg_result A) (k : A -> pg_result B) : pg_result B :=
  match r with
  | Ok a => k a
  | Err e => Err e
  end.

Notation "x <-! r ; k" := (bind_result r (fun x => k))
  (at level 100, r at next level, right associativity).

Definition guard_result (b : bool) (e : pg_error) : pg_result unit :=
  if b then Ok tt else Err e.

(** ** Tables (first migration) *)

Module Profile.
Record row := {
  id : uuid;
  user_id : uuid;
  email : string;
  first_name : option string;
  last_name : option string;
  created_at : timestamptz;
  updated_at : timestamptz;
}.
End Profile.

Module UserRole.
Record row := {
  id : uuid;
  user_id : uuid;
  role : app_role;
  created_at : timestamptz;
}.
End UserRole.

Module Project.
Record row := {
  id : uuid;
  name : string;
  description : option string;
  created_by : uuid;
  created_at : timestamptz;
  updated_at : timestamptz;
  is_active : bool;
}.
End Project.

Module Assignment.
Record row := {
  id : uuid;
  project_id : uuid;
  user_id : uuid;
  assigned_by : uuid;
  created_at : timestamptz;
}.
End Assignment.

Module TimeEntry.
Record row := {
  id : uuid;
  user_id : uuid;
  project_id : uuid;
  description : option string;
  start_time : timestamptz;
  end_time : option timestamptz;
  duration_minutes : option Z;
  is_running : bool;
  created_at : timestamptz;
  updated_at : timestamptz;
}.
End TimeEntry.

(** The store: [auth.users] (only its key is referenced) and the five
    public tables. *)
Record db := {
  auth_users : list uuid;
  profiles : list Profile.row;
  user_roles : list UserRole.row;
  projects : list Project.row;
  project_assignments : list Assignment.row;
  time_entries : list TimeEntry.row;
}.

Definition empty_db : db :=
  {| auth_users := []; profiles := []; user_roles := []; projects := [];
     project_assignments := []; time_entries := [] |}.

(** ** The generated column [duration_minutes]

    [EXTRACT(EPOCH FROM (end_time - start_time)) / 60] is a [numeric] (as of
    PostgreSQL 14); storing it in an [INTEGER] column rounds to the nearest
    integer, halves away from zero, and fails when the result does not fit in
    32 bits. *)

Definition usec_per_minute : Z := 60000000.

Definition round_half_away (n d : Z) : Z :=
  if 0 <=? n then (2 * n + d) / (2 * d) else - ((2 * (- n) + d) / (2 * d)).

Definition minutes_between (start_time end_time : timestamptz) : Z :=
  round_half_away (end_time - start_time) usec_per_minute.

Definition int4_ok (z : Z) : bool := (- 2 ^ 31 <=? z) && (z <=? 2 ^ 31 - 1).

Definition generated_duration (start_time : timestamptz) (end_time : option timestamptz)
  : pg_result (option Z) :=
  match end_time with
  | Some e =>
      let d := minutes_between start_time e in
      if int4_ok d then Ok (Some d) else Err numeric_value_out_of_range
  | None => Ok None
  end.

(** ** Security-definer functions and policies *)

(** SQL equality on a nullable left operand: [NULL = x] is not true. *)
Definition sql_eq (a : option uuid) (b : uuid) : bool :=
  match a with
  | Some x => bool_decide (x = b)
  | None => false
  end.

(** [public.has_role(_user_id, _role)] *)
Definition has_role (d : db) (_user_id : option uuid) (_role : app_role) : bool :=
  existsb (fun r => sql_eq _user_id (UserRole.user_id r) && bool_decide (UserRole.role r = _role))
          (user_roles d).

(** The [EXISTS] of "Users can view assigned projects", as recreated by the
    second migration.  The subquery reads [project_assignments] under the
    caller's own policy, which admits the caller's rows, the only ones it
    looks at. *)
Definition assigned (d : db) (uid : option uuid) (project : uuid) : bool :=
  existsb (fun a => bool_decide (Assignment.project_id a = project)
                    && sql_eq uid (Assignment.user_id a))
          (project_assignments d).

Module Policy.
(** Permissive policies of one table and command are combined with OR; a
    [FOR ALL] policy takes part in every command. *)

Definition projects_select (d : db) (uid : option uuid) (p : Project.row) : bool :=
  (assigned d uid (Project.id p) || has_role d uid admin) || has_role d uid admin.

Definition projects_write (d : db) (uid : option uuid) : bool := has_role d uid admin.

Definition profiles_select (uid : option uuid) (p : Profile.row) : bool :=
  sql_eq uid (Profile.user_id p).

Definition project_assignments_select (d : db) (uid : option uuid) (a : Assignment.row) : bool :=
  (sql_eq uid (Assignment.user_id a) || has_role d uid admin) || has_role d uid admin.

Definition project_assignments_write (d : db) (uid : option uuid) : bool := has_role d uid admin.

Definition time_entries_select (d : db) (uid : option uuid) (e : TimeEntry.row) : bool :=
  sql_eq uid (TimeEntry.user_id e) || has_role d uid admin.

(** [FOR INSERT WITH CHECK (auth.uid() = user_id)], on the proposed row,
    whose [user_id] may still be null. *)
Definition time_entries_insert (uid : option uuid) (new_user_id : option uuid) : bool :=
  match new_user_id with
  | Some u => sql_eq uid u
  | None => false
  end.

Definition time_entries_update (uid : option uuid) (e : TimeEntry.row) : bool :=
  sql_eq uid (TimeEntry.user_id e).

Definition time_entries_delete (uid : option uuid) (e : TimeEntry.row) : bool :=
  sql_eq uid (TimeEntry.user_id e).
End Policy.

(** ** Statements on [time_entries] *)

Module NewTimeEntry.
(** The object passed to [.insert(...)].  [user_id] is [user?.id]: absent
    without a session.  A key left out of the object is a null column. *)
Record t := {
  user_id : option uuid;
  project_id : uuid;
  description : option string;
  start_time : timestamptz_in;
  end_time : option timestamptz_in;
  is_running : bool;
}.
End NewTimeEntry.

Definition read_timestamptz (x : timestamptz_in) : pg_result timestamptz :=
  match x with
  | ts_ok t => Ok t
  | ts_bad => Err invalid_datetime_format
  end.

Definition read_timestamptz_opt (x : option timestamptz_in) : pg_result (option timestamptz) :=
  match x with
  | Some y => t <-! read_timestamptz y; Ok (Some t)
  | None => Ok None
  end.

Definition set_time_entries (d : db) (l : list TimeEntry.row) : db :=
  {| auth_users := auth_users d; profiles := profiles d; user_roles := user_roles d;
     projects := projects d; project_assignments := project_assignments d;
     time_entries := l |}.

Definition project_exists (d : db) (project : uuid) : bool :=
  existsb (fun p => bool_decide (Project.id p = project)) (projects d).

Definition user_exists (d : db) (u : uuid) : bool := bool_decide (u ∈ auth_users d).

(** [INSERT INTO time_entries]: the values are read, the generated column is
    computed, the [WITH CHECK] policy is applied to the proposed row, then
    the column and key constraints.  [new_id] is the value drawn by
    [gen_random_uuid()], [now] the store's clock. *)
Definition insert_time_entry (d : db) (uid : option uuid) (new_id : uuid)
    (now : timestamptz) (v : NewTimeEntry.t) : pg_result db :=
  start <-! read_timestamptz (NewTimeEntry.start_time v);
  stop <-! read_timestamptz_opt (NewTimeEntry.end_time v);
  duration <-! generated_duration start stop;
  _ <-! guard_result (Policy.time_entries_insert uid (NewTimeEntry.user_id v))
                     insufficient_privilege;
  match NewTimeEntry.user_id v with
  | None => Err not_null_violation
  | Some owner =>
      _ <-! guard_result
              (negb (existsb (fun e => bool_decide (TimeEntry.id e = new_id)) (time_entries d)))
              unique_violation;
      _ <-! guard_result (user_exists d owner && project_exists d (NewTimeEntry.project_id v))
                         foreign_key_violation;
      Ok (set_time_entries d
            (time_entries d ++
             [ {| TimeEntry.id := new_id;
                  TimeEntry.user_id := owner;
                  TimeEntry.project_id := NewTimeEntry.project_id v;
                  TimeEntry.description := NewTimeEntry.description v;
                  TimeEntry.start_time := start;
                  TimeEntry.end_time := stop;
                  TimeEntry.duration_minutes := duration;
                  TimeEntry.is_running := NewTimeEntry.is_running v;
                  TimeEntry.created_at := now;
                  TimeEntry.updated_at := now |} ]))
  end.

(** [UPDATE ... WHERE]: every selected row is replaced; one failing row
    fails the statement. *)
Fixpoint update_where {A} (sel : A -> bool) (f : A -> pg_result A) (l : list A)
  : pg_result (list A) :=
  match l with
  | [] => Ok []
  | x :: r =>
      x' <-! (if sel x then f x else Ok x);
      r' <-! update_where sel f r;
      Ok (x' :: r')
  end.

(** The new version of a row under
    [.update({ end_time: ..., is_running: false })]: the generated column is
    recomputed and the trigger [update_time_entries_updated_at] stamps it. *)
Definition stopped (clock now : timestamptz) (e : TimeEntry.row) : pg_result TimeEntry.row :=
  duration <-! generated_duration (TimeEntry.start_time e) (Some clock);
  Ok {| TimeEntry.id := TimeEntry.id e;
        TimeEntry.user_id := TimeEntry.user_id e;
        TimeEntry.project_id := TimeEntry.project_id e;
        TimeEntry.description := TimeEntry.description e;
        TimeEntry.start_time := TimeEntry.start_time e;
        TimeEntry.end_time := Some clock;
        TimeEntry.duration_minutes := duration;
        TimeEntry.is_running := false;
        TimeEntry.created_at := TimeEntry.created_at e;
        TimeEntry.updated_at := now |}.

(** The rows an [UPDATE ... WHERE id = entryId] of the caller reaches: the
    [WHERE] clause reads the row, so the [SELECT] policies apply together
    with the [UPDATE] policy.  The new row keeps its [user_id], so it passes
    the same checks as the old one. *)
Definition stop_target (d : db) (uid : option uuid) (entryId : uuid) (e : TimeEntry.row) : bool :=
  bool_decide (TimeEntry.id e = entryId)
  && Policy.time_entries_select d uid e
  && Policy.time_entries_update uid e.

Module UserDashboard.

(** [interface Project] *)
Record Project := {
  id : string;
  name : string;
  description : option string;
}.

(** [interface TimeEntry]; [projects_name] is [projects.name]. *)
Record TimeEntry := {
  te_id : string;
  te_description : option string;
  start_time : timestamptz;
  end_time : option timestamptz;
  duration_minutes : option Z;
  is_running : bool;
  project_id : string;
  projects_name : string;
}.

(** The [newEntry] form state; the two times are kept as what the store
    reads in the text of the field. *)
Record NewEntry := {
  ne_project_id : string;
  ne_description : string;
  ne_start_time : timestamptz_in;
  ne_end_time : timestamptz_in;
}.

Definition project_columns (p : Project.row) : Project :=
  {| id := Project.id p; name := Project.name p; description := Project.description p |}.

(** [.from('projects').select('id, name, description').eq('is_active', true)] *)
Definition fetchProjects (d : db) (uid : option uuid) : list Project :=
  map project_columns
      (List.filter (fun p => Policy.projects_select d uid p && Project.is_active p)
                   (projects d)).

Definition entry_columns (e : TimeEntry.row) (p : Project.row) : TimeEntry :=
  {| te_id := TimeEntry.id e;
     te_description := TimeEntry.description e;
     start_time := TimeEntry.start_time e;
     end_time := TimeEntry.end_time e;
     duration_minutes := TimeEntry.duration_minutes e;
     is_running := TimeEntry.is_running e;
     project_id := TimeEntry.project_id e;
     projects_name := Project.name p |}.

(** The rows of [time_entries] joined with [projects!inner]: both tables
    are read under the caller's policies, and an entry without a readable
    project is dropped by the inner join. *)
Definition joined_rows (d : db) (uid : option uuid) : list (TimeEntry.row * Project.row) :=
  e ← List.filter (Policy.time_entries_select d uid) (time_entries d);
  p ← List.filter (fun p => Policy.projects_select d uid p
                            && bool_decide (Project.id p = TimeEntry.project_id e))
                  (projects d);
  [(e, p)].

Fixpoint insert_desc (v : TimeEntry) (l : list TimeEntry) : list TimeEntry :=
  match l with
  | [] => [v]
  | x :: r => if start_time x <? start_time v then v :: l else x :: insert_desc v r
  end.

(** [.order('start_time', { ascending: false })] *)
Definition order_start_time_desc (l : list TimeEntry) : list TimeEntry :=
  foldr insert_desc [] l.

Definition fetchTimeEntries (d : db) (uid : option uuid) : list TimeEntry :=
  order_start_time_desc (map (fun ep => entry_columns ep.1 ep.2) (joined_rows d uid)).

Definition startTimer (d : db) (uid : option uuid) (new_id : uuid) (clock now : timestamptz)
    (projectId : string) (description : string) : pg_result db :=
  insert_time_entry d uid new_id now
    {| NewTimeEntry.user_id := uid;
       NewTimeEntry.project_id := projectId;
       NewTimeEntry.description := Some description;
       NewTimeEntry.start_time := ts_ok clock;
       NewTimeEntry.end_time := None;
       NewTimeEntry.is_running := true |}.

Definition stopTimer (d : db) (uid : option uuid) (clock now : timestamptz)
    (entryId : string) : pg_result db :=
  rows <-! update_where (stop_target d uid entryId) (stopped clock now) (time_entries d);
  Ok (set_time_entries d rows).

Definition createManualEntry (d : db) (uid : option uuid) (new_id : uuid)
    (now : timestamptz) (newEntry : NewEntry) : pg_result db :=
  insert_time_entry d uid new_id now
    {| NewTimeEntry.user_id := uid;
       NewTimeEntry.project_id := ne_project_id newEntry;
       NewTimeEntry.description := Some (ne_description newEntry);
       NewTimeEntry.start_time := ne_start_time newEntry;
       NewTimeEntry.end_time := Some (ne_end_time newEntry);
       NewTimeEntry.is_running := false |}.

(** [timeEntries.find(entry => entry.is_running)] *)
Definition runningEntry (timeEntries : list TimeEntry) : option TimeEntry :=
  List.find is_running timeEntries.

Section Filters.
(** The text in which the API returns a timestamp. *)
Variable timestamptz_out : timestamptz -> string.

(** [filterProject] is ['all'] or a project id, [filterDate] is empty or
    the text of a date. *)
Definition filteredEntries (filterProject filterDate : string)
    (timeEntries : list TimeEntry) : list TimeEntry :=
  List.filter
    (fun entry =>
       let matchesProject :=
         bool_decide (filterProject = "all") || bool_decide (project_id entry = filterProject) in
       let matchesDate :=
         bool_decide (filterDate = "")
         || String.prefix filterDate (timestamptz_out (start_time entry)) in
       matchesProject && matchesDate)
    timeEntries.
End Filters.

(** [formatDuration].  [minutes] comes from an integer column, so
    [Math.floor(minutes / 60)] is the floored quotient, [minutes % 60] the
    remainder with the sign of [minutes], and [Math.round] changes nothing;
    [!minutes] holds for null and for 0. *)
Definition formatDuration (minutes : option Z) : string :=
  match minutes with
  | None => "0h 0m"
  | Some m =>
      if bool_decide (m = 0) then "0h 0m"
      else
        let hours := m / 60 in
        let mins := Z.rem m 60 in
        (pretty hours ++ "h " ++ pretty mins ++ "m")%string
  end.

End UserDashboard.

(** ** Statements on [projects] and [project_assignments] *)

Definition set_projects (d : db) (l : list Project.row) : db :=
  {| auth_users := auth_users d; profiles := profiles d; user_roles := user_roles d;
     projects := l; project_assignments := project_assignments d;
     time_entries := time_entries d |}.

Definition set_project_assignments (d : db) (l : list Assignment.row) : db :=
  {| auth_users := auth_users d; profiles := profiles d; user_roles := user_roles d;
     projects := projects d; project_assignments := l;
     time_entries := time_entries d |}.

(** [UNIQUE(project_id, user_id)] *)
Definition assignment_exists (d : db) (project u : uuid) : bool :=
  existsb (fun a => bool_decide (Assignment.project_id a = project)
                    && bool_decide (Assignment.user_id a = u))
          (project_assignments d).

(** The new version of a row under [.update({ is_active: ... })], stamped by
    the trigger [update_projects_updated_at]. *)
Definition with_is_active (b : bool) (now : timestamptz) (p : Project.row) : Project.row :=
  {| Project.id := Project.id p;
     Project.name := Project.name p;
     Project.description := Project.description p;
     Project.created_by := Project.created_by p;
     Project.created_at := Project.created_at p;
     Project.updated_at := now;
     Project.is_active := b |}.

(** ** The display name: JavaScript's [trim] and [||] on strings

    Characters are code units below 256; the white space among them is
    U+0009 to U+000D, U+0020 and U+00A0. *)

Definition is_space (c : Ascii.ascii) : bool :=
  let n := Ascii.nat_of_ascii c in
  ((9 <=? n) && (n <=? 13) || (n =? 32) || (n =? 160))%nat.

Fixpoint trim_start (s : string) : string :=
  match s with
  | String c r => if is_space c then trim_start r else s
  | EmptyString => EmptyString
  end.

Fixpoint trim_end (s : string) : string :=
  match s with
  | String c r =>
      match trim_end r with
      | EmptyString => if is_space c then EmptyString else String c EmptyString
      | r' => String c r'
      end
  | EmptyString => EmptyString
  end.

Definition trim (s : string) : string := trim_end (trim_start s).

(** [a || b] on strings: the empty string is falsy. *)
Definition or_string (a b : string) : string :=
  if bool_decide (a = "") then b else a.

(** [x || ''] on a nullable string. *)
Definition or_empty (x : option string) : string := or_string (default "" x) "".

(** [.order(column, { ascending: false })] on a column of integers or
    timestamps: rows with equal keys keep the order they had. *)
Fixpoint insert_desc_by {A} (key : A -> Z) (v : A) (l : list A) : list A :=
  match l with
  | [] => [v]
  | x :: r => if key x <? key v then v :: l else x :: insert_desc_by key v r
  end.

Definition order_desc_by {A} (key : A -> Z) (l : list A) : list A :=
  foldr (insert_desc_by key) [] l.


Module AdminDashboard.

(** [interface TimeEntrySummary], over the type of the hour totals. *)
Record TimeEntrySummary (num : Type) := {
  user_id : string;
  project_id : string;
  total_hours : num;
  user_name : string;
  project_name : string;
}.
Arguments user_id {num} _.
Arguments project_id {num} _.
Arguments total_hours {num} _.
Arguments user_name {num} _.
Arguments project_name {num} _.

(** The columns of [.select('user_id, project_id, duration_minutes')]. *)
Record EntryColumns := {
  e_user_id : string;
  e_project_id : string;
  e_duration_minutes : option Z;
}.

Definition entry_columns (e : TimeEntry.row) : EntryColumns :=
  {| e_user_id := TimeEntry.user_id e;
     e_project_id := TimeEntry.project_id e;
     e_duration_minutes := TimeEntry.duration_minutes e |}.

(** [new Map(pairs)]: a later pair with the same key replaces an earlier one. *)
Definition new_Map {V} (pairs : list (string * V)) : gmap string V :=
  foldl (fun m kv => <[kv.1 := kv.2]> m) ∅ pairs.

(** [`${profile.first_name || ''} ${profile.last_name || ''}`.trim() || profile.email] *)
Definition display_name (profile : Profile.row) : string :=
  or_string (trim (or_empty (Profile.first_name profile) ++ " "
                   ++ or_empty (Profile.last_name profile)))
            (Profile.email profile).

(** [`${entry.user_id}-${entry.project_id}`] *)
Definition summary_key (entry : EntryColumns) : string :=
  e_user_id entry ++ "-" ++ e_project_id entry.

(** The [summary] object, in the order in which its keys were created.  A
    key contains a hyphen: it is no array index, so this is the order of
    [Object.values], and it names no property inherited from
    [Object.prototype], so [summary[key]] is an own value or undefined. *)
Fixpoint get {V} (key : string) (o : list (string * V)) : option V :=
  match o with
  | [] => None
  | (k, v) :: r => if bool_decide (k = key) then Some v else get key r
  end.

Fixpoint alter {V} (f : V -> V) (key : string) (o : list (string * V)) : list (string * V) :=
  match o with
  | [] => []
  | (k, v) :: r => if bool_decide (k = key) then (k, f v) :: r else (k, v) :: alter f key r
  end.

Section Numbers.
(** JavaScript numbers, with the two operations the summary uses:
    [a + b], and [m / 60] for an integer [m]. *)
Variable num : Type.
Variable zero : num.
Variable add : num -> num -> num.
Variable div60 : Z -> num.

Definition add_hours (h : num) (s : TimeEntrySummary num) : TimeEntrySummary num :=
  {| user_id := user_id s; project_id := project_id s;
     total_hours := add (total_hours s) h;
     user_name := user_name s; project_name := project_name s |}.

(** The body of [timeEntriesData?.forEach(entry => ...)]. *)
Definition summary_step (profilesMap : gmap string Profile.row)
    (projectsMap : gmap string Project.row)
    (summary : list (string * TimeEntrySummary num)) (entry : EntryColumns)
  : list (string * TimeEntrySummary num) :=
  let key := summary_key entry in
  let profile := profilesMap !! e_user_id entry in
  let project := projectsMap !! e_project_id entry in
  let summary1 :=
    match get key summary, profile, project with
    | None, Some profile, Some project =>
        summary ++
        [(key, {| user_id := e_user_id entry;
                  project_id := e_project_id entry;
                  total_hours := zero;
                  user_name := display_name profile;
                  project_name := Project.name project |})]
    | _, _, _ => summary
    end in
  match get key summary1 with
  | Some _ => alter (add_hours (div60 (default 0 (e_duration_minutes entry)))) key summary1
  | None => summary1
  end.

(** The grouping of [fetchTimeEntriesSummary] on the three fetched lists;
    the result is [Object.values(summary)]. *)
Definition summarize (timeEntriesData : list EntryColumns)
    (profilesData : list Profile.row) (projectsData : list Project.row)
  : list (TimeEntrySummary num) :=
  let profilesMap := new_Map (map (fun p => (Profile.user_id p, p)) profilesData) in
  let projectsMap := new_Map (map (fun p => (Project.id p, p)) projectsData) in
  map snd (foldl (summary_step profilesMap projectsMap) [] timeEntriesData).

(** [.from('time_entries')....not('duration_minutes', 'is', null)] *)
Definition fetched_entries (d : db) (uid : option uuid) : list EntryColumns :=
  map entry_columns
      (List.filter (fun e => Policy.time_entries_select d uid e
                             && bool_decide (TimeEntry.duration_minutes e <> None))
                   (time_entries d)).

Definition fetched_profiles (d : db) (uid : option uuid) : list Profile.row :=
  List.filter (Policy.profiles_select uid) (profiles d).

Definition fetched_projects (d : db) (uid : option uuid) : list Project.row :=
  List.filter (Policy.projects_select d uid) (projects d).

Definition fetchTimeEntriesSummary (d : db) (uid : option uuid)
  : list (TimeEntrySummary num) :=
  summarize (fetched_entries d uid) (fetched_profiles d uid) (fetched_projects d uid).

(** What one fetched entry adds to its group, and the total of the
    entries with a given key, added up from [zero] in their order. *)
Definition hours_of (entry : EntryColumns) : num :=
  div60 (default 0 (e_duration_minutes entry)).

Definition group_total (key : string) (entries : list EntryColumns) : num :=
  foldl add zero
        (map hours_of (List.filter (fun e => bool_decide (summary_key e = key)) entries)).

(** The same total, taken over the entries of a user on a project. *)
Definition pair_total (u project : string) (entries : list EntryColumns) : num :=
  foldl add zero
        (map hours_of
             (List.filter (fun e => bool_decide (e_user_id e = u)
                                    && bool_decide (e_project_id e = project))
                          entries)).
End Numbers.

(** [createProject]: [created_by] is the session's user, absent without a
    session; [is_active] takes its default. *)
Definition createProject (d : db) (uid : option uuid) (new_id : uuid) (now : timestamptz)
    (name description : string) : pg_result db :=
  _ <-! guard_result (Policy.projects_write d uid) insufficient_privilege;
  match uid with
  | None => Err not_null_violation
  | Some creator =>
      _ <-! guard_result
              (negb (existsb (fun p => bool_decide (Project.id p = new_id)) (projects d)))
              unique_violation;
      _ <-! guard_result (user_exists d creator) foreign_key_violation;
      Ok (set_projects d
            (projects d ++
             [ {| Project.id := new_id;
                  Project.name := name;
                  Project.description := Some description;
                  Project.created_by := creator;
                  Project.created_at := now;
                  Project.updated_at := now;
                  Project.is_active := true |} ]))
  end.

(** [assignUserToProject], on the dialog's [selectedProject] and
    [selectedUser]. *)
Definition assignUserToProject (d : db) (uid : option uuid) (new_id : uuid)
    (now : timestamptz) (selectedProject selectedUser : string) : pg_result db :=
  _ <-! guard_result (Policy.project_assignments_write d uid) insufficient_privilege;
  match uid with
  | None => Err not_null_violation
  | Some assigner =>
      _ <-! guard_result
              (negb (existsb (fun a => bool_decide (Assignment.id a = new_id))
                             (project_assignments d))
               && negb (assignment_exists d selectedProject selectedUser))
              unique_violation;
      _ <-! guard_result
              (project_exists d selectedProject && user_exists d selectedUser
               && user_exists d assigner)
              foreign_key_violation;
      Ok (set_project_assignments d
            (project_assignments d ++
             [ {| Assignment.id := new_id;
                  Assignment.project_id := selectedProject;
                  Assignment.user_id := selectedUser;
                  Assignment.assigned_by := assigner;
                  Assignment.created_at := now |} ]))
  end.

(** [toggleProjectStatus]: the rows reached are those the caller may both
    read and update. *)
Definition toggleProjectStatus (d : db) (uid : option uuid) (now : timestamptz)
    (projectId : string) (currentStatus : bool) : pg_result db :=
  rows <-! update_where
             (fun p => bool_decide (Project.id p = projectId)
                       && Policy.projects_select d uid p
                       && Policy.projects_write d uid)
             (fun p => Ok (with_is_active (negb currentStatus) now p))
             (projects d);
  Ok (set_projects d rows).

(** [interface User] *)
Record User := {
  u_id : string;
  u_email : string;
  u_first_name : option string;
  u_last_name : option string;
}.

(** [user => ({ id: user.user_id, email: user.email, ... })] *)
Definition user_columns (user : Profile.row) : User :=
  {| u_id := Profile.user_id user;
     u_email := Profile.email user;
     u_first_name := Profile.first_name user;
     u_last_name := Profile.last_name user |}.

(** [fetchUsers]: [.from('profiles').select('user_id, email, first_name, last_name')],
    each row renamed into a [User]. *)
Definition fetchUsers (d : db) (uid : option uuid) : list User :=
  map user_columns (List.filter (Policy.profiles_select uid) (profiles d)).

(** A nullable string in a condition: null and the empty string are falsy. *)
Definition truthy (x : option string) : bool :=
  match x with
  | Some s => negb (bool_decide (s = ""))
  | None => false
  end.

(** The label of a user in the two selects:
    [user.first_name && user.last_name ? `${user.first_name} ${user.last_name}` : user.email] *)
Definition user_label (user : User) : string :=
  if truthy (u_first_name user) && truthy (u_last_name user)
  then (default "" (u_first_name user) ++ " " ++ default "" (u_last_name user))%string
  else u_email user.

(** [fetchProjects]: [.from('projects').select('*').order('created_at', { ascending: false })] *)
Definition fetchProjects (d : db) (uid : option uuid) : list Project.row :=
  order_desc_by Project.created_at (List.filter (Policy.projects_select d uid) (projects d)).

Section Csv.
(** [toFixed2] is [n.toFixed(2)]. *)
Variable num : Type.
Variable toFixed2 : num -> string.



End Csv.

End AdminDashboard.

(** ** Roles and sign-up *)

(** [public.get_current_user_role()]:
    [SELECT role FROM public.user_roles WHERE user_id = auth.uid() LIMIT 1].
    Without [ORDER BY] the row is whichever the scan meets first; here, the
    first in the order of the table. *)
Definition get_current_user_role (d : db) (uid : option uuid) : option app_role :=
  UserRole.role <$> List.find (fun r => sql_eq uid (UserRole.user_id r)) (user_roles d).

Module NewUser.
(** The columns of the new [auth.users] row that [handle_new_user] reads;
    the two names are [raw_user_meta_data ->> 'first_name'] and
    [->> 'last_name'], null when the key is absent. *)
Record t := {
  id : uuid;
  email : option string;
  first_name : option string;
  last_name : option string;
}.
End NewUser.

Definition set_profiles (d : db) (l : list Profile.row) : db :=
  {| auth_users := auth_users d; profiles := l; user_roles := user_roles d;
     projects := projects d; project_assignments := project_assignments d;
     time_entries := time_entries d |}.

Definition set_user_roles (d : db) (l : list UserRole.row) : db :=
  {| auth_users := auth_users d; profiles := profiles d; user_roles := l;
     projects := projects d; project_assignments := project_assignments d;
     time_entries := time_entries d |}.

(** [public.handle_new_user()], fired after the insert of [NEW] into
    [auth.users]: it runs as its owner, so no policy applies.  Each insert
    meets the not-null columns, then the primary key and the [UNIQUE]
    constraints, then the foreign key to [auth.users].  [profile_id] and
    [role_id] are the values drawn by [gen_random_uuid()]. *)
Definition handle_new_user (d : db) (NEW : NewUser.t) (profile_id role_id : uuid)
    (now : timestamptz) : pg_result db :=
  match NewUser.email NEW with
  | None => Err not_null_violation
  | Some mail =>
      _ <-! guard_result
              (negb (existsb (fun p => bool_decide (Profile.id p = profile_id)
                                       || bool_decide (Profile.user_id p = NewUser.id NEW))
                             (profiles d)))
              unique_violation;
      _ <-! guard_result (user_exists d (NewUser.id NEW)) foreign_key_violation;
      _ <-! guard_result
              (negb (existsb (fun r => bool_decide (UserRole.id r = role_id)
                                       || bool_decide (UserRole.user_id r = NewUser.id NEW)
                                          && bool_decide (UserRole.role r = user))
                             (user_roles d)))
              unique_violation;
      Ok (set_user_roles
            (set_profiles d
               (profiles d ++
                [ {| Profile.id := profile_id;
                     Profile.user_id := NewUser.id NEW;
                     Profile.email := mail;
                     Profile.first_name := NewUser.first_name NEW;
                     Profile.last_name := NewUser.last_name NEW;
                     Profile.created_at := now;
                     Profile.updated_at := now |} ]))
            (user_roles d ++
             [ {| UserRole.id := role_id;
                  UserRole.user_id := NewUser.id NEW;
                  UserRole.role := user;
                  UserRole.created_at := now |} ]))
  end.

(** ** Counting characters *)




(** ** Calls and histories *)

(** The store after a call: a failed statement leaves it as it was. *)
Definition after (d : db) (r : pg_result db) : db :=
  match r with
  | Ok d' => d'
  | Err _ => d
  end.

(** The writing functions of the two dashboards, with their arguments and
    the values drawn by the environment ([gen_random_uuid()], the browser's
    clock, the store's clock). *)
Inductive call :=
  | StartTimer (new_id : uuid) (clock now : timestamptz) (projectId description : string)
  | StopTimer (clock now : timestamptz) (entryId : string)
  | CreateManualEntry (new_id : uuid) (now : timestamptz) (newEntry : UserDashboard.NewEntry)
  | CreateProject (new_id : uuid) (now : timestamptz) (name description : string)
  | AssignUser (new_id : uuid) (now : timestamptz) (selectedProject selectedUser : string)
  | ToggleProject (now : timestamptz) (projectId : string) (currentStatus : bool).

Definition run (d : db) (uid : option uuid) (c : call) : pg_result db :=
  match c with
  | StartTimer new_id clock now projectId description =>
      UserDashboard.startTimer d uid new_id clock now projectId description
  | StopTimer clock now entryId => UserDashboard.stopTimer d uid clock now entryId
  | CreateManualEntry new_id now newEntry =>
      UserDashboard.createManualEntry d uid new_id now newEntry
  | CreateProject new_id now name description =>
      AdminDashboard.createProject d uid new_id now name description
  | AssignUser new_id now selectedProject selectedUser =>
      AdminDashboard.assignUserToProject d uid new_id now selectedProject selectedUser
  | ToggleProject now projectId currentStatus =>
      AdminDashboard.toggleProjectStatus d uid now projectId currentStatus
  end.

(** A history of calls, each with the session that makes it. *)
Definition replay (d : db) (h : list (option uuid * call)) : db :=
  foldl (fun d1 uc => after d1 (run d1 uc.1 uc.2)) d h.

(** The running entries of a user. *)
Definition running_of (u : uuid) (e : TimeEntry.row) : bool :=
  bool_decide (TimeEntry.user_id e = u) && TimeEntry.is_running e.

Definition running_count (d : db) (u : uuid) : nat :=
  length (List.filter (running_of u) (time_entries d)).






(** The row [stopped] produces when the duration fits. *)
Definition stopped_row (clock now : timestamptz) (e : TimeEntry.row) : TimeEntry.row :=
  {| TimeEntry.id := TimeEntry.id e;
     TimeEntry.user_id := TimeEntry.user_id e;
     TimeEntry.project_id := TimeEntry.project_id e;
     TimeEntry.description := TimeEntry.description e;
     TimeEntry.start_time := TimeEntry.start_time e;
     TimeEntry.end_time := Some clock;
     TimeEntry.duration_minutes := Some (minutes_between (TimeEntry.start_time e) clock);
     TimeEntry.is_running := false;
     TimeEntry.created_at := TimeEntry.created_at e;
     TimeEntry.updated_at := now |}.

(** The recomputed duration of a stopped row fits the column. *)
Definition fits (clock : timestamptz) (e : TimeEntry.row) : bool :=
  int4_ok (minutes_between (TimeEntry.start_time e) clock).

(** The entry with the given id, if it is the caller's. *)
Definition own_entry (uid : option uuid) (entryId : uuid) (e : TimeEntry.row) : bool :=
  bool_decide (TimeEntry.id e = entryId) && sql_eq uid (TimeEntry.user_id e).

(** The new row of a successful insert. *)
Definition inserted_row (new_id owner : uuid) (now : timestamptz) (v : NewTimeEntry.t)
    (start : timestamptz) (stop : option timestamptz) : TimeEntry.row :=
  {| TimeEntry.id := new_id;
     TimeEntry.user_id := owner;
     TimeEntry.project_id := NewTimeEntry.project_id v;
     TimeEntry.description := NewTimeEntry.description v;
     TimeEntry.start_time := start;
     TimeEntry.end_time := stop;
     TimeEntry.duration_minutes := (fun e => minutes_between start e) <$> stop;
     TimeEntry.is_running := NewTimeEntry.is_running v;
     TimeEntry.created_at := now;
     TimeEntry.updated_at := now |}.

Definition fresh_entry_id (d : db) (new_id : uuid) : bool :=
  negb (existsb (fun e => bool_decide (TimeEntry.id e = new_id)) (time_entries d)).

(** The assignments of a user to a project. *)
Definition assignment_count (d : db) (project u : uuid) : nat :=
  length (List.filter (fun a => bool_decide (Assignment.project_id a = project)
                                && bool_decide (Assignment.user_id a = u))
                      (project_assignments d)).

(** What every row written by the dashboards satisfies: the duration is the
    one generated from the two times, and a running row has no end. *)
Definition entry_derived (e : TimeEntry.row) : Prop :=
  TimeEntry.duration_minutes e
  = (fun t => minutes_between (TimeEntry.start_time e) t) <$> TimeEntry.end_time e
  /\ (TimeEntry.is_running e = true -> TimeEntry.end_time e = None).

(** Referential integrity of [time_entries.project_id]. *)
Definition entries_have_projects (d : db) : Prop :=
  forall e, e ∈ time_entries d -> project_exists d (TimeEntry.project_id e) = true.

(** ** A small store used in the examples *)

Module Sample.
Definition root : uuid := "00000000-0000-4000-8000-000000000001".
Definition alice : uuid := "00000000-0000-4000-8000-00000000000a".
Definition bob : uuid := "00000000-0000-4000-8000-00000000000b".
Definition website : uuid := "11111111-0000-4000-8000-000000000001".
Definition archive : uuid := "11111111-0000-4000-8000-000000000002".

Definition profile_of (n : string) (u : uuid) (mail : string)
    (first last : option string) : Profile.row :=
  {| Profile.id := n; Profile.user_id := u; Profile.email := mail;
     Profile.first_name := first; Profile.last_name := last;
     Profile.created_at := 0; Profile.updated_at := 0 |}.

Definition role_of (n : string) (u : uuid) (r : app_role) : UserRole.row :=
  {| UserRole.id := n; UserRole.user_id := u; UserRole.role := r;
     UserRole.created_at := 0 |}.

Definition project_of (p : uuid) (n : string) (active : bool) : Project.row :=
  {| Project.id := p; Project.name := n; Project.description := None;
     Project.created_by := root; Project.created_at := 0; Project.updated_at := 0;
     Project.is_active := active |}.

Definition assignment_of (n : string) (p u : uuid) : Assignment.row :=
  {| Assignment.id := n; Assignment.project_id := p; Assignment.user_id := u;
     Assignment.assigned_by := root; Assignment.created_at := 0 |}.

(** An entry as the store holds it after a manual entry or a stop. *)
Definition finished (n : string) (u p : uuid) (start stop : timestamptz) : TimeEntry.row :=
  {| TimeEntry.id := n; TimeEntry.user_id := u; TimeEntry.project_id := p;
     TimeEntry.description := Some ""; TimeEntry.start_time := start;
     TimeEntry.end_time := Some stop;
     TimeEntry.duration_minutes := Some (minutes_between start stop);
     TimeEntry.is_running := false;
     TimeEntry.created_at := 0; TimeEntry.updated_at := 0 |}.

(** An administrator and two users; alice is assigned to the active
    project, bob to none; no time has been logged. *)
Definition team : db :=
  {| auth_users := [root; alice; bob];
     profiles := [ profile_of "p1" root "root@example.org" (Some "Ada") (Some "Root");
                   profile_of "p2" alice "alice@example.org" (Some "Alice") None;
                   profile_of "p3" bob "bob@example.org" None None ];
     user_roles := [ role_of "r1" root user; role_of "r2" root admin;
                     role_of "r3" alice user; role_of "r4" bob user ];
     projects := [ project_of website "Website" true; project_of archive "Archive" false ];
     project_assignments := [ assignment_of "a1" website alice;
                              assignment_of "a2" archive alice ];
     time_entries := [] |}.

Definition minute : Z := 60000000.
Definition second : Z := 1000000.

(** The store after bob, assigned to nothing, logged an hour on the
    website project. *)
Definition team_bob_logged : db :=
  set_time_entries team [ finished "t1" bob website 0 (60 * minute) ].

(** The store after alice logged an hour on the website project. *)
Definition team_alice_logged : db :=
  set_time_entries team [ finished "t1" alice website 0 (60 * minute) ].

(** The store after alice and bob each logged time on the website
    project. *)
Definition team_both_logged : db :=
  set_time_entries team [ finished "t1" alice website 0 (60 * minute);
                          finished "t2" bob website 0 (30 * minute) ].

(** Exact fractions stand in for JavaScript's numbers in the examples. *)
Definition fraction : Type := QArith_base.Q.
Definition fraction_zero : fraction := QArith_base.Qmake 0 1.
Definition fraction_add : fraction -> fraction -> fraction := QArith_base.Qplus.
Definition fraction_div60 (m : Z) : fraction := QArith_base.Qmake m 60.

(** alice starts a timer, stops it, and starts another one. *)
Definition alice_day : list (option uuid * call) :=
  [ (Some alice, StartTimer "t1" 10 11 website "");
    (Some alice, StopTimer (70 * second) 71 "t1");
    (Some alice, StartTimer "t2" (80 * second) 81 archive "") ].

(** carol has just signed up: her row is in [auth.users], nothing else yet. *)
Definition carol : uuid := "00000000-0000-4000-8000-00000000000c".

Definition carol_row : NewUser.t :=
  {| NewUser.id := carol; NewUser.email := Some "carol@example.org";
     NewUser.first_name := Some "Carol"; NewUser.last_name := None |}.

Definition team_with_carol : db :=
  {| auth_users := auth_users team ++ [carol]; profiles := profiles team;
     user_roles := user_roles team; projects := projects team;
     project_assignments := project_assignments team; time_entries := time_entries team |}.




End Sample.

(** * Properties *)

(** ** Results and list helpers *)

Lemma bind_result_Ok {A B} (r : pg_result A) (k : A -> pg_result B) (b : B) :
  bind_result r k = Ok b <-> exists a, r = Ok a /\ k a = Ok b.
Proof.
  destruct r as [a|e]; simpl; split.
  - intros H. by exists a.
  - intros (a' & Ha & Hk). by inversion Ha; subst.
  - discriminate.
  - intros (a' & Ha & _). discriminate.
Qed.

Lemma guard_result_Ok (b : bool) (e : pg_error) (u : unit) :
  guard_result b e = Ok u <-> b = true.
Proof. destruct b, u; simpl; split; congruence. Qed.

Lemma elem_of_List_filter {A} (f : A -> bool) (l : list A) (x : A) :
  x ∈ List.filter f l <-> x ∈ l /\ f x = true.
Proof. rewrite !list_elem_of_In. apply filter_In. Qed.

Lemma existsb_elem_of {A} (f : A -> bool) (l : list A) :
  existsb f l = true <-> exists x, x ∈ l /\ f x = true.
Proof.
  rewrite existsb_exists. split; intros (x & H1 & H2); exists x; split; auto;
    by apply list_elem_of_In.
Qed.

Lemma set_time_entries_same (d : db) : set_time_entries d (time_entries d) = d.
Proof. by destruct d. Qed.

Lemma sql_eq_true (a : option uuid) (b : uuid) : sql_eq a b = true <-> a = Some b.
Proof.
  destruct a as [x|]; simpl.
  - rewrite bool_decide_eq_true. split; congruence.
  - split; discriminate.
Qed.

(** ** The generated duration *)

Lemma minutes_between_nearest (s e : timestamptz) :
  2 * Z.abs (usec_per_minute * minutes_between s e - (e - s)) <= usec_per_minute.
Proof.
  unfold minutes_between, round_half_away, usec_per_minute.
  destruct (0 <=? e - s) eqn:Hs; [apply Z.leb_le in Hs | apply Z.leb_gt in Hs];
    Z.div_mod_to_equations; lia.
Qed.

Lemma minutes_between_same (s : timestamptz) : minutes_between s s = 0.
Proof. unfold minutes_between. by rewrite Z.sub_diag. Qed.

Lemma minutes_between_second (s : timestamptz) : minutes_between s (s + 1000000) = 0.
Proof.
  unfold minutes_between. replace (s + 1000000 - s) with 1000000 by lia. reflexivity.
Qed.

Lemma generated_duration_Ok (s : timestamptz) (stop : option timestamptz) (dur : option Z) :
  generated_duration s stop = Ok dur ->
  dur = (fun e => minutes_between s e) <$> stop
  /\ (forall m, dur = Some m -> int4_ok m = true).
Proof.
  unfold generated_duration. destruct stop as [e|]; simpl.
  - destruct (int4_ok _) eqn:Hok; [|discriminate].
    intros [= <-]. split; [done|]. by intros m [= <-].
  - intros [= <-]. split; [done|]. discriminate.
Qed.

(** ** Policies *)

Lemma select_own_entry (d : db) (e : TimeEntry.row) :
  Policy.time_entries_select d (Some (TimeEntry.user_id e)) e = true.
Proof.
  unfold Policy.time_entries_select. simpl. by rewrite bool_decide_true.
Qed.

Lemma select_entry_non_admin (d : db) (uid : option uuid) (e : TimeEntry.row) :
  has_role d uid admin = false ->
  Policy.time_entries_select d uid e = true -> uid = Some (TimeEntry.user_id e).
Proof.
  unfold Policy.time_entries_select. intros ->. rewrite orb_false_r. apply sql_eq_true.
Qed.

Lemma stop_target_own (d : db) (uid : option uuid) (entryId : uuid) (e : TimeEntry.row) :
  stop_target d uid entryId e = own_entry uid entryId e.
Proof.
  unfold stop_target, own_entry, Policy.time_entries_select, Policy.time_entries_update.
  destruct (bool_decide _), (sql_eq _ _), (has_role _ _ _); reflexivity.
Qed.

(** ** Inserting a time entry *)

Lemma insert_time_entry_Ok (d : db) (uid : option uuid) (new_id : uuid) (now : timestamptz)
    (v : NewTimeEntry.t) (d' : db) :
  insert_time_entry d uid new_id now v = Ok d' <->
  exists owner start stop,
    uid = Some owner /\ NewTimeEntry.user_id v = Some owner
    /\ NewTimeEntry.start_time v = ts_ok start
    /\ read_timestamptz_opt (NewTimeEntry.end_time v) = Ok stop
    /\ (forall e, stop = Some e -> int4_ok (minutes_between start e) = true)
    /\ fresh_entry_id d new_id = true
    /\ user_exists d owner = true
    /\ project_exists d (NewTimeEntry.project_id v) = true
    /\ d' = set_time_entries d (time_entries d ++ [inserted_row new_id owner now v start stop]).
Proof.
  unfold insert_time_entry, fresh_entry_id. split.
  - intros H.
    apply bind_result_Ok in H as (start & Hstart & H).
    apply bind_result_Ok in H as (stop & Hstop & H).
    apply bind_result_Ok in H as (dur & Hdur & H).
    apply bind_result_Ok in H as (u1 & Hpol & H).
    apply guard_result_Ok in Hpol.
    destruct (NewTimeEntry.user_id v) as [owner|] eqn:Howner; [|discriminate].
    apply bind_result_Ok in H as (u2 & Hfresh & H).
    apply bind_result_Ok in H as (u3 & Hfk & H).
    apply guard_result_Ok in Hfresh, Hfk.
    apply andb_true_iff in Hfk as [Hu Hp].
    simpl in Hpol. apply sql_eq_true in Hpol.
    destruct (NewTimeEntry.start_time v) as [t|] eqn:Hst; simpl in Hstart; [|discriminate].
    injection Hstart as ->.
    apply generated_duration_Ok in Hdur as [-> Hfit].
    exists owner, start, stop. repeat split; try done.
    + intros e ->. by apply Hfit.
    + by injection H as <-.
  - intros (owner & start & stop & -> & Hv & Hst & Hstop & Hfit & Hfresh & Hu & Hp & ->).
    rewrite Hst, Hstop, Hv. simpl.
    unfold generated_duration. destruct stop as [e|]; simpl.
    + rewrite (Hfit e eq_refl). simpl. rewrite bool_decide_true by done. simpl.
      rewrite Hfresh, Hu, Hp. reflexivity.
    + rewrite bool_decide_true by done. simpl. rewrite Hfresh, Hu, Hp. reflexivity.
Qed.

(** ** Stopping a timer *)

Lemma stopped_fits (clock now : timestamptz) (e : TimeEntry.row) :
  stopped clock now e =
  if fits clock e then Ok (stopped_row clock now e) else Err numeric_value_out_of_range.
Proof.
  unfold stopped, fits, generated_duration, stopped_row. simpl.
  by destruct (int4_ok _).
Qed.

Lemma update_where_stopped (sel : TimeEntry.row -> bool) (clock now : timestamptz)
    (l : list TimeEntry.row) :
  update_where sel (stopped clock now) l =
  if forallb (fun e => negb (sel e) || fits clock e) l
  then Ok (map (fun e => if sel e then stopped_row clock now e else e) l)
  else Err numeric_value_out_of_range.
Proof.
  induction l as [|x r IH]; simpl; [done|].
  rewrite IH, stopped_fits.
  destruct (sel x); simpl.
  - destruct (fits clock x); simpl; [|done]. by destruct (forallb _ r).
  - by destruct (forallb _ r).
Qed.

Lemma stopTimer_closed (d : db) (uid : option uuid) (clock now : timestamptz) (entryId : uuid) :
  UserDashboard.stopTimer d uid clock now entryId =
  if forallb (fun e => negb (own_entry uid entryId e) || fits clock e) (time_entries d)
  then Ok (set_time_entries d
             (map (fun e => if own_entry uid entryId e then stopped_row clock now e else e)
                  (time_entries d)))
  else Err numeric_value_out_of_range.
Proof.
  unfold UserDashboard.stopTimer. rewrite update_where_stopped.
  replace (forallb (fun e => negb (stop_target d uid entryId e) || fits clock e) (time_entries d))
    with (forallb (fun e => negb (own_entry uid entryId e) || fits clock e) (time_entries d))
    by (induction (time_entries d) as [|x r IH]; simpl; [done|];
        by rewrite IH, stop_target_own).
  destruct (forallb _ _); simpl; [|done].
  do 2 f_equal. apply map_ext. intros e. by rewrite stop_target_own.
Qed.

Lemma own_entry_true (uid : option uuid) (entryId : uuid) (e : TimeEntry.row) :
  own_entry uid entryId e = true <-> TimeEntry.id e = entryId /\ uid = Some (TimeEntry.user_id e).
Proof.
  unfold own_entry. rewrite andb_true_iff, bool_decide_eq_true, sql_eq_true. tauto.
Qed.

Lemma forallb_elem_of {A} (f : A -> bool) (l : list A) :
  forallb f l = true <-> forall x, x ∈ l -> f x = true.
Proof.
  rewrite forallb_forall. split; intros H x Hx; apply H; by apply list_elem_of_In.
Qed.

(** C3 (amended).  [stopTimer] has no failure for an entry that is missing,
    foreign or already stopped.  When the recomputed duration of the entry
    fits the integer column, the call succeeds and the store differs from the
    old one exactly in the entry with the given id owned by the caller: that
    entry, running or not, gets [is_running = false], [end_time] set to the
    caller's clock and its duration recomputed; every other entry is kept
    as it is, and when no entry has that id and owner the store is unchanged. *)
Theorem stopTimer_effect (d : db) (uid : option uuid) (clock now : timestamptz) (entryId : uuid) :
  (forall e, e ∈ time_entries d -> TimeEntry.id e = entryId ->
             uid = Some (TimeEntry.user_id e) -> fits clock e = true) ->
  exists d',
    UserDashboard.stopTimer d uid clock now entryId = Ok d'
    /\ time_entries d' =
       map (fun e => if own_entry uid entryId e then stopped_row clock now e else e)
           (time_entries d)
    /\ (forall e, e ∈ time_entries d -> TimeEntry.id e = entryId ->
                  uid = Some (TimeEntry.user_id e) ->
                  exists e', e' ∈ time_entries d'
                             /\ TimeEntry.id e' = entryId
                             /\ TimeEntry.user_id e' = TimeEntry.user_id e
                             /\ TimeEntry.is_running e' = false
                             /\ TimeEntry.end_time e' = Some clock
                             /\ TimeEntry.duration_minutes e'
                                = Some (minutes_between (TimeEntry.start_time e) clock))
    /\ (forall e, e ∈ time_entries d ->
                  (TimeEntry.id e <> entryId \/ uid <> Some (TimeEntry.user_id e)) ->
                  e ∈ time_entries d')
    /\ ((forall e, e ∈ time_entries d ->
                   TimeEntry.id e <> entryId \/ uid <> Some (TimeEntry.user_id e)) ->
        d' = d).
Proof.
  intros Hfit. rewrite stopTimer_closed.
  assert (forallb (fun e => negb (own_entry uid entryId e) || fits clock e) (time_entries d)
          = true) as ->.
  { apply forallb_elem_of. intros e He.
    destruct (own_entry uid entryId e) eqn:Hown; [|done].
    apply own_entry_true in Hown as [Hid Hu]. simpl. by apply Hfit. }
  eexists. split; [reflexivity|]. simpl. split; [done|]. split; [|split].
  - intros e He Hid Hu. exists (stopped_row clock now e).
    split; [|by repeat split].
    apply list_elem_of_fmap. exists e. split; [|done].
    by rewrite (proj2 (own_entry_true uid entryId e)).
  - intros e He Hno. apply list_elem_of_fmap. exists e. split; [|done].
    destruct (own_entry uid entryId e) eqn:Hown; [|done].
    apply own_entry_true in Hown. tauto.
  - intros Hnone.
    transitivity (set_time_entries d (time_entries d)); [|apply set_time_entries_same].
    f_equal. transitivity (map (fun e => e) (time_entries d)); [|apply map_id].
    apply map_ext_in. intros e He.
    destruct (own_entry uid entryId e) eqn:Hown; [|done].
    apply own_entry_true in Hown. apply list_elem_of_In in He.
    specialize (Hnone e He). tauto.
Qed.

Lemma stopTimer_effect_witness :
  exists d',
    UserDashboard.stopTimer Sample.team_alice_logged (Some Sample.alice)
      (90 * Sample.minute) 7 "t1" = Ok d'
    /\ exists e', e' ∈ time_entries d' /\ TimeEntry.is_running e' = false
                  /\ TimeEntry.end_time e' = Some (90 * Sample.minute)
                  /\ TimeEntry.duration_minutes e' = Some 90.
Proof.
  destruct (stopTimer_effect Sample.team_alice_logged (Some Sample.alice)
              (90 * Sample.minute) 7 "t1") as (d' & Hrun & _ & Hown & _).
  - intros e He _ _. apply list_elem_of_singleton in He. subst e. reflexivity.
  - exists d'. split; [exact Hrun|].
    destruct (Hown (Sample.finished "t1" Sample.alice Sample.website 0 (60 * Sample.minute)))
      as (e' & He' & _ & _ & Hrunning & Hend & Hdur).
    + apply list_elem_of_singleton. reflexivity.
    + reflexivity.
    + reflexivity.
    + exists e'. repeat split; assumption.
Defined.

(** C3 (as stated) fails: stopping an entry that is already stopped succeeds
    and moves its [end_time], and stopping an entry that does not exist, or
    that belongs to someone else, succeeds without touching the store. *)
Lemma stopTimer_never_rejects :
  (exists d', UserDashboard.stopTimer Sample.team_alice_logged (Some Sample.alice)
                (90 * Sample.minute) 7 "t1" = Ok d'
              /\ d' <> Sample.team_alice_logged)
  /\ UserDashboard.stopTimer Sample.team_alice_logged (Some Sample.alice)
       (90 * Sample.minute) 7 "t2" = Ok Sample.team_alice_logged
  /\ UserDashboard.stopTimer Sample.team_alice_logged (Some Sample.bob)
       (90 * Sample.minute) 7 "t1" = Ok Sample.team_alice_logged.
Proof.
  split; [|split; reflexivity].
  eexists. split; [reflexivity|].
  intros H. apply (f_equal time_entries) in H. discriminate H.
Qed.

(** ** Manual entries *)

(** C2 (amended).  [createManualEntry] compares the two times nowhere: for a
    signed-in user known to the store, an existing project, a fresh id and two
    readable times whose distance in minutes fits the integer column, the
    entry is created whatever the order of the times, stopped, with the
    rounded distance as its duration; this duration is 0 when the end equals
    the start and when it is one second later. *)
Theorem createManualEntry_accepts (d : db) (u new_id : uuid) (now : timestamptz)
    (newEntry : UserDashboard.NewEntry) (s e : timestamptz) :
  UserDashboard.ne_start_time newEntry = ts_ok s ->
  UserDashboard.ne_end_time newEntry = ts_ok e ->
  int4_ok (minutes_between s e) = true ->
  fresh_entry_id d new_id = true ->
  user_exists d u = true ->
  project_exists d (UserDashboard.ne_project_id newEntry) = true ->
  exists row,
    UserDashboard.createManualEntry d (Some u) new_id now newEntry
    = Ok (set_time_entries d (time_entries d ++ [row]))
    /\ TimeEntry.id row = new_id
    /\ TimeEntry.user_id row = u
    /\ TimeEntry.project_id row = UserDashboard.ne_project_id newEntry
    /\ TimeEntry.start_time row = s
    /\ TimeEntry.end_time row = Some e
    /\ TimeEntry.is_running row = false
    /\ TimeEntry.duration_minutes row = Some (minutes_between s e)
    /\ (e = s \/ e = s + 1000000 -> TimeEntry.duration_minutes row = Some 0).
Proof.
  intros Hs He Hfit Hfresh Hu Hp.
  eexists. split.
  - unfold UserDashboard.createManualEntry. apply insert_time_entry_Ok.
    exists u, s, (Some e). simpl. rewrite Hs, He. simpl.
    repeat split; try done. by intros e' [= <-].
  - simpl. repeat split; try done.
    intros [-> | ->]; by rewrite ?minutes_between_same, ?minutes_between_second.
Qed.

Lemma createManualEntry_accepts_witness :
  exists row,
    UserDashboard.createManualEntry Sample.team (Some Sample.alice) "t1" 7
      {| UserDashboard.ne_project_id := Sample.website;
         UserDashboard.ne_description := "standup";
         UserDashboard.ne_start_time := ts_ok (10 * Sample.minute);
         UserDashboard.ne_end_time := ts_ok (10 * Sample.minute + 1000000) |}
    = Ok (set_time_entries Sample.team (time_entries Sample.team ++ [row]))
    /\ TimeEntry.is_running row = false
    /\ TimeEntry.duration_minutes row = Some 0.
Proof.
  destruct (createManualEntry_accepts Sample.team Sample.alice "t1" 7
              {| UserDashboard.ne_project_id := Sample.website;
                 UserDashboard.ne_description := "standup";
                 UserDashboard.ne_start_time := ts_ok (10 * Sample.minute);
                 UserDashboard.ne_end_time := ts_ok (10 * Sample.minute + 1000000) |}
              (10 * Sample.minute) (10 * Sample.minute + 1000000))
    as (row & Hrun & _ & _ & _ & _ & _ & Hstopped & _ & Hzero);
    try reflexivity.
  exists row. split; [exact Hrun|]. split; [exact Hstopped|].
  apply Hzero. right. reflexivity.
Defined.

(** C2 (as stated) fails: a manual entry whose end equals its start is
    created, and so is one whose end lies before its start. *)
Lemma createManualEntry_no_range_check :
  (exists row,
     UserDashboard.createManualEntry Sample.team (Some Sample.alice) "t1" 7
       {| UserDashboard.ne_project_id := Sample.website;
          UserDashboard.ne_description := "";
          UserDashboard.ne_start_time := ts_ok (10 * Sample.minute);
          UserDashboard.ne_end_time := ts_ok (10 * Sample.minute) |}
     = Ok (set_time_entries Sample.team [row])
     /\ TimeEntry.start_time row = 10 * Sample.minute
     /\ TimeEntry.end_time row = Some (10 * Sample.minute)
     /\ TimeEntry.duration_minutes row = Some 0)
  /\ (exists row,
        UserDashboard.createManualEntry Sample.team (Some Sample.alice) "t1" 7
          {| UserDashboard.ne_project_id := Sample.website;
             UserDashboard.ne_description := "";
             UserDashboard.ne_start_time := ts_ok (10 * Sample.minute);
             UserDashboard.ne_end_time := ts_ok (5 * Sample.minute) |}
        = Ok (set_time_entries Sample.team [row])
        /\ TimeEntry.duration_minutes row = Some (-5)).
Proof.
  split; eexists; (split; [reflexivity|]); repeat split; reflexivity.
Qed.

(** ** Running timers *)

Lemma running_count_insert (d : db) (u : uuid) (row : TimeEntry.row) :
  running_count (set_time_entries d (time_entries d ++ [row])) u
  = (running_count d u + (if running_of u row then 1 else 0))%nat.
Proof.
  unfold running_count. simpl. rewrite List.filter_app, length_app. simpl.
  by destruct (running_of u row).
Qed.

(** A successful [startTimer] adds one running entry, owned by its caller. *)
Lemma startTimer_Ok (d : db) (uid : option uuid) (new_id : uuid) (clock now : timestamptz)
    (projectId description : string) (d' : db) :
  UserDashboard.startTimer d uid new_id clock now projectId description = Ok d' <->
  exists owner,
    uid = Some owner
    /\ fresh_entry_id d new_id = true
    /\ user_exists d owner = true
    /\ project_exists d projectId = true
    /\ d' = set_time_entries d
              (time_entries d ++
               [ {| TimeEntry.id := new_id; TimeEntry.user_id := owner;
                    TimeEntry.project_id := projectId;
                    TimeEntry.description := Some description;
                    TimeEntry.start_time := clock; TimeEntry.end_time := None;
                    TimeEntry.duration_minutes := None; TimeEntry.is_running := true;
                    TimeEntry.created_at := now; TimeEntry.updated_at := now |} ]).
Proof.
  unfold UserDashboard.startTimer. rewrite insert_time_entry_Ok. simpl. split.
  - intros (owner & start & stop & -> & _ & [= <-] & [= <-] & _ & Hf & Hu & Hp & ->).
    exists owner. by repeat split.
  - intros (owner & -> & Hf & Hu & Hp & ->).
    exists owner, clock, None. by repeat split.
Qed.



Lemma update_where_total {A} (sel : A -> bool) (g : A -> A) (l : list A) :
  update_where sel (fun x => Ok (g x)) l = Ok (map (fun x => if sel x then g x else x) l).
Proof.
  induction l as [|x r IH]; simpl; [done|]. rewrite IH. by destruct (sel x).
Qed.

(** The calls of the admin dashboard leave [time_entries] alone. *)
Lemma createProject_time_entries (d : db) (uid : option uuid) (new_id : uuid)
    (now : timestamptz) (name description : string) :
  time_entries (after d (AdminDashboard.createProject d uid new_id now name description))
  = time_entries d.
Proof.
  unfold AdminDashboard.createProject.
  destruct (Policy.projects_write d uid); simpl; [|done].
  destruct uid as [creator|]; [|done].
  destruct (negb _); simpl; [|done].
  by destruct (user_exists d creator).
Qed.

Lemma assignUserToProject_time_entries (d : db) (uid : option uuid) (new_id : uuid)
    (now : timestamptz) (selectedProject selectedUser : string) :
  time_entries
    (after d (AdminDashboard.assignUserToProject d uid new_id now selectedProject selectedUser))
  = time_entries d.
Proof.
  unfold AdminDashboard.assignUserToProject.
  destruct (Policy.project_assignments_write d uid); simpl; [|done].
  destruct uid as [assigner|]; [|done].
  destruct (_ && _); simpl; [|done].
  by destruct (_ && _).
Qed.

Lemma toggleProjectStatus_time_entries (d : db) (uid : option uuid) (now : timestamptz)
    (projectId : string) (currentStatus : bool) :
  time_entries (after d (AdminDashboard.toggleProjectStatus d uid now projectId currentStatus))
  = time_entries d.
Proof.
  unfold AdminDashboard.toggleProjectStatus. by rewrite update_where_total.
Qed.











(** ** Reading time entries *)

Lemma insert_desc_perm (v : UserDashboard.TimeEntry) (l : list UserDashboard.TimeEntry) :
  UserDashboard.insert_desc v l ≡ₚ v :: l.
Proof.
  induction l as [|x r IH]; simpl; [done|].
  destruct (_ <? _); [done|]. rewrite IH. apply Permutation_swap.
Qed.

Lemma order_start_time_desc_perm (l : list UserDashboard.TimeEntry) :
  UserDashboard.order_start_time_desc l ≡ₚ l.
Proof.
  induction l as [|x r IH]; simpl; [done|].
  rewrite insert_desc_perm. by rewrite IH.
Qed.

Lemma joined_rows_spec (d : db) (uid : option uuid) (e : TimeEntry.row) (p : Project.row) :
  (e, p) ∈ UserDashboard.joined_rows d uid <->
  e ∈ time_entries d /\ p ∈ projects d
  /\ Policy.time_entries_select d uid e = true
  /\ Policy.projects_select d uid p = true
  /\ Project.id p = TimeEntry.project_id e.
Proof.
  unfold UserDashboard.joined_rows. rewrite list_elem_of_bind. split.
  - intros (e' & Hin & He'). apply elem_of_List_filter in He' as [He' Hsel].
    apply list_elem_of_bind in Hin as (p' & Hin & Hp').
    apply list_elem_of_singleton in Hin. injection Hin as -> ->.
    apply elem_of_List_filter in Hp' as [Hp' Hpol].
    apply andb_true_iff in Hpol as [Hpol Hid]. apply bool_decide_eq_true in Hid.
    done.
  - intros (He & Hp & Hsel & Hpol & Hid). exists e. split.
    + apply list_elem_of_bind. exists p. split; [by apply list_elem_of_singleton|].
      apply elem_of_List_filter. split; [done|].
      rewrite Hpol. simpl. by apply bool_decide_eq_true.
    + by apply elem_of_List_filter.
Qed.

Lemma fetchTimeEntries_spec (d : db) (uid : option uuid) (v : UserDashboard.TimeEntry) :
  v ∈ UserDashboard.fetchTimeEntries d uid <->
  exists e p,
    e ∈ time_entries d /\ p ∈ projects d
    /\ Policy.time_entries_select d uid e = true
    /\ Policy.projects_select d uid p = true
    /\ Project.id p = TimeEntry.project_id e
    /\ v = UserDashboard.entry_columns e p.
Proof.
  unfold UserDashboard.fetchTimeEntries.
  rewrite order_start_time_desc_perm, list_elem_of_fmap. split.
  - intros ([e p] & -> & Hin). apply joined_rows_spec in Hin.
    exists e, p. simpl. tauto.
  - intros (e & p & He & Hp & Hsel & Hpol & Hid & ->).
    exists (e, p). split; [done|]. by apply joined_rows_spec.
Qed.

Lemma filteredEntries_subset (out : timestamptz -> string) (filterProject filterDate : string)
    (l : list UserDashboard.TimeEntry) (v : UserDashboard.TimeEntry) :
  v ∈ UserDashboard.filteredEntries out filterProject filterDate l -> v ∈ l.
Proof. unfold UserDashboard.filteredEntries. rewrite elem_of_List_filter. tauto. Qed.

Lemma filteredEntries_all (out : timestamptz -> string) (l : list UserDashboard.TimeEntry) :
  UserDashboard.filteredEntries out "all" "" l = l.
Proof.
  unfold UserDashboard.filteredEntries. induction l as [|x r IH]; [done|].
  cbn [List.filter]. rewrite IH.
  by rewrite (bool_decide_true ("all" = "all")), (bool_decide_true ("" = "")).
Qed.

Lemma project_exists_elem_of (d : db) (project : uuid) :
  project_exists d project = true <-> exists p, p ∈ projects d /\ Project.id p = project.
Proof.
  unfold project_exists. rewrite existsb_elem_of.
  split; intros (p & Hp & H); exists p; split; auto.
  - by apply bool_decide_eq_true in H.
  - by apply bool_decide_eq_true.
Qed.

Lemma projects_select_admin (d : db) (uid : option uuid) (p : Project.row) :
  has_role d uid admin = true -> Policy.projects_select d uid p = true.
Proof. unfold Policy.projects_select. intros ->. apply orb_true_r. Qed.

Lemma NoDup_map_inj {A B} (f : A -> B) (l : list A) (x y : A) :
  NoDup (map f l) -> x ∈ l -> y ∈ l -> f x = f y -> x = y.
Proof.
  induction l as [|a r IH]; intros Hnd Hx Hy Hf; [by apply elem_of_nil in Hx|].
  simpl in Hnd. apply NoDup_cons in Hnd as [Ha Hnd].
  apply elem_of_cons in Hx as [->|Hx]; apply elem_of_cons in Hy as [->|Hy]; auto.
  - destruct Ha. rewrite Hf. apply list_elem_of_fmap. by exists y.
  - destruct Ha. rewrite <- Hf. apply list_elem_of_fmap. by exists x.
Qed.

(** C4.  Whatever the project and date filters of the dashboard, every entry
    a caller without the admin role is shown is the columns of an entry of
    [time_entries] whose [user_id] is the caller, and (entry ids being
    unique) is no entry of another user; and a caller with the admin role,
    with no filter set, is shown every entry of every user (each entry
    refers to a project of the store, as the foreign key ensures). *)
Theorem fetchTimeEntries_authorized (d : db) (actor : uuid) (out : timestamptz -> string) :
  (has_role d (Some actor) admin = false ->
   forall filterProject filterDate v,
     v ∈ UserDashboard.filteredEntries out filterProject filterDate
           (UserDashboard.fetchTimeEntries d (Some actor)) ->
     (exists e p, e ∈ time_entries d /\ TimeEntry.user_id e = actor
                  /\ v = UserDashboard.entry_columns e p)
     /\ (NoDup (map TimeEntry.id (time_entries d)) ->
         forall other, other ∈ time_entries d -> TimeEntry.user_id other <> actor ->
                       UserDashboard.te_id v <> TimeEntry.id other))
  /\ (has_role d (Some actor) admin = true ->
      entries_have_projects d ->
      forall e, e ∈ time_entries d ->
        exists p, p ∈ projects d /\ Project.id p = TimeEntry.project_id e
                  /\ UserDashboard.entry_columns e p
                     ∈ UserDashboard.filteredEntries out "all" ""
                         (UserDashboard.fetchTimeEntries d (Some actor))).
Proof.
  split.
  - intros Hrole fp fd v Hv. apply filteredEntries_subset in Hv.
    apply fetchTimeEntries_spec in Hv as (e & p & He & _ & Hsel & _ & _ & ->).
    apply select_entry_non_admin in Hsel; [|done]. injection Hsel as Hactor.
    split; [by exists e, p|].
    intros Hnd other Hother Hne Hid. simpl in Hid. apply Hne.
    by rewrite <- (NoDup_map_inj TimeEntry.id (time_entries d) e other Hnd He Hother Hid).
  - intros Hrole Hfk e He.
    destruct (proj1 (project_exists_elem_of d _) (Hfk e He)) as (p & Hp & Hid).
    exists p. split; [done|]. split; [done|].
    rewrite filteredEntries_all. apply fetchTimeEntries_spec.
    exists e, p. repeat split; try done.
    + unfold Policy.time_entries_select. rewrite Hrole. apply orb_true_r.
    + by apply projects_select_admin.
Qed.

Lemma fetchTimeEntries_authorized_witness :
  (forall v, v ∈ UserDashboard.filteredEntries (fun _ => "") Sample.website ""
                   (UserDashboard.fetchTimeEntries Sample.team_both_logged (Some Sample.alice)) ->
             UserDashboard.te_id v <> "t2")
  /\ (exists p, p ∈ projects Sample.team_both_logged
                /\ Project.id p = Sample.website
                /\ UserDashboard.entry_columns
                     (Sample.finished "t2" Sample.bob Sample.website 0 (30 * Sample.minute)) p
                   ∈ UserDashboard.filteredEntries (fun _ => "") "all" ""
                       (UserDashboard.fetchTimeEntries Sample.team_both_logged
                          (Some Sample.root))).
Proof.
  split.
  - intros v Hv.
    refine (proj2 (proj1 (fetchTimeEntries_authorized Sample.team_both_logged Sample.alice
                            (fun _ => "")) eq_refl Sample.website "" v Hv) _
              (Sample.finished "t2" Sample.bob Sample.website 0 (30 * Sample.minute)) _ _).
    + apply (bool_decide_unpack _). vm_compute. exact I.
    + apply elem_of_cons. right. apply list_elem_of_here.
    + discriminate.
  - refine (proj2 (fetchTimeEntries_authorized Sample.team_both_logged Sample.root
                     (fun _ => "")) eq_refl _
              (Sample.finished "t2" Sample.bob Sample.website 0 (30 * Sample.minute)) _).
    + intros e He. apply elem_of_cons in He as [->|He]; [reflexivity|].
      apply list_elem_of_singleton in He as ->. reflexivity.
    + apply elem_of_cons. right. apply list_elem_of_singleton. reflexivity.
Defined.

(** ** Own entries, assignments and deactivation *)

Lemma projects_select_id (d : db) (uid : option uuid) (p q : Project.row) :
  Project.id p = Project.id q ->
  Policy.projects_select d uid p = Policy.projects_select d uid q.
Proof. unfold Policy.projects_select. by intros ->. Qed.

Lemma projects_select_iff (d : db) (uid : option uuid) (p : Project.row) :
  Policy.projects_select d uid p = true <->
  assigned d uid (Project.id p) = true \/ has_role d uid admin = true.
Proof.
  unfold Policy.projects_select. rewrite !orb_true_iff. tauto.
Qed.

(** The rows of [fetchTimeEntries] before they are ordered. *)
Lemma joined_columns (d : db) (uid : option uuid) :
  map (fun ep => UserDashboard.entry_columns ep.1 ep.2) (UserDashboard.joined_rows d uid)
  = (e ← List.filter (Policy.time_entries_select d uid) (time_entries d);
     map (UserDashboard.entry_columns e)
         (List.filter (fun p => Policy.projects_select d uid p
                                && bool_decide (Project.id p = TimeEntry.project_id e))
                      (projects d))).
Proof.
  unfold UserDashboard.joined_rows.
  induction (List.filter (Policy.time_entries_select d uid) (time_entries d)) as [|e r IH];
    [done|].
  cbn [mbind list_bind]. rewrite map_app. f_equal; [|exact IH].
  induction (List.filter _ (projects d)) as [|p ps IHp]; [done|].
  cbn [mbind list_bind]. simpl. f_equal. exact IHp.
Qed.

Lemma toggled_rows (e : TimeEntry.row) (f : Project.row -> bool) (sel : Project.row -> bool)
    (b : bool) (now : timestamptz) (ps : list Project.row) :
  (forall p q, Project.id p = Project.id q -> f p = f q) ->
  map (UserDashboard.entry_columns e)
      (List.filter f (map (fun p => if sel p then with_is_active b now p else p) ps))
  = map (UserDashboard.entry_columns e) (List.filter f ps).
Proof.
  intros Hf. induction ps as [|p r IH]; [done|]. simpl.
  destruct (sel p).
  - rewrite (Hf (with_is_active b now p) p) by done.
    destruct (f p); simpl; by rewrite IH.
  - destruct (f p); simpl; by rewrite IH.
Qed.

Lemma toggleProjectStatus_fetchTimeEntries (d : db) (uid : option uuid) (now : timestamptz)
    (projectId : string) (currentStatus : bool) (viewer : option uuid) :
  UserDashboard.fetchTimeEntries
    (after d (AdminDashboard.toggleProjectStatus d uid now projectId currentStatus)) viewer
  = UserDashboard.fetchTimeEntries d viewer.
Proof.
  unfold UserDashboard.fetchTimeEntries. f_equal. rewrite !joined_columns.
  unfold AdminDashboard.toggleProjectStatus. rewrite update_where_total. simpl.
  change (Policy.time_entries_select (set_projects d _) viewer)
    with (Policy.time_entries_select d viewer).
  induction (List.filter (Policy.time_entries_select d viewer) (time_entries d)) as [|e r IH];
    [done|].
  cbn [mbind list_bind]. f_equal; [|exact IH].
  apply toggled_rows. intros p q Hpq.
  change (Policy.projects_select (set_projects d _) viewer)
    with (Policy.projects_select d viewer).
  by rewrite (projects_select_id d viewer p q Hpq), Hpq.
Qed.

(** C5 (amended).  An entry passes the read policy of [time_entries] for its
    owner whatever the assignments and the project's [is_active] flag.  It is
    among the entries [fetchTimeEntries] gives its owner exactly when its
    project is readable by the owner, that is when the owner is assigned to
    the project or is an admin, again whatever [is_active].  Toggling a
    project changes the result of [fetchTimeEntries] for nobody. *)
Theorem own_entries_readable (d : db) (u : uuid) (e : TimeEntry.row) :
  e ∈ time_entries d ->
  TimeEntry.user_id e = u ->
  Policy.time_entries_select d (Some u) e = true
  /\ (forall p, p ∈ projects d -> Project.id p = TimeEntry.project_id e ->
        (UserDashboard.entry_columns e p ∈ UserDashboard.fetchTimeEntries d (Some u)
         <-> assigned d (Some u) (Project.id p) = true \/ has_role d (Some u) admin = true))
  /\ (forall uid now projectId currentStatus viewer,
        UserDashboard.fetchTimeEntries
          (after d (AdminDashboard.toggleProjectStatus d uid now projectId currentStatus))
          viewer
        = UserDashboard.fetchTimeEntries d viewer).
Proof.
  intros He <-. split; [apply select_own_entry|]. split.
  - intros p Hp Hid. rewrite <- projects_select_iff, fetchTimeEntries_spec. split.
    + intros (e' & p' & _ & _ & _ & Hpol & Hid' & Hcols).
      rewrite <- Hpol. apply projects_select_id.
      rewrite Hid, Hid'.
      exact (f_equal UserDashboard.project_id Hcols).
    + intros Hpol. exists e, p. repeat split; try done. apply select_own_entry.
  - intros. apply toggleProjectStatus_fetchTimeEntries.
Qed.

Lemma own_entries_readable_witness :
  Policy.time_entries_select Sample.team_both_logged (Some Sample.alice)
    (Sample.finished "t1" Sample.alice Sample.website 0 (60 * Sample.minute)) = true
  /\ UserDashboard.entry_columns
       (Sample.finished "t1" Sample.alice Sample.website 0 (60 * Sample.minute))
       (Sample.project_of Sample.website "Website" true)
     ∈ UserDashboard.fetchTimeEntries Sample.team_both_logged (Some Sample.alice)
  /\ UserDashboard.fetchTimeEntries
       (after Sample.team_both_logged
          (AdminDashboard.toggleProjectStatus Sample.team_both_logged (Some Sample.root)
             99 Sample.website true))
       (Some Sample.alice)
     = UserDashboard.fetchTimeEntries Sample.team_both_logged (Some Sample.alice).
Proof.
  destruct (own_entries_readable Sample.team_both_logged Sample.alice
              (Sample.finished "t1" Sample.alice Sample.website 0 (60 * Sample.minute)))
    as (Hpol & Hshown & Htoggle).
  - apply list_elem_of_here.
  - reflexivity.
  - split; [exact Hpol|]. split.
    + apply (Hshown (Sample.project_of Sample.website "Website" true)).
      * apply list_elem_of_here.
      * reflexivity.
      * left. reflexivity.
    + apply Htoggle.
Defined.

(** C5 (as stated) fails: bob is assigned to no project; the entry he logged
    on the website project passes the read policy of [time_entries], but his
    dashboard's [fetchTimeEntries] does not return it. *)
Lemma unassigned_entry_not_fetched :
  Sample.finished "t1" Sample.bob Sample.website 0 (60 * Sample.minute)
    ∈ time_entries Sample.team_bob_logged
  /\ has_role Sample.team_bob_logged (Some Sample.bob) admin = false
  /\ Policy.time_entries_select Sample.team_bob_logged (Some Sample.bob)
       (Sample.finished "t1" Sample.bob Sample.website 0 (60 * Sample.minute)) = true
  /\ UserDashboard.fetchTimeEntries Sample.team_bob_logged (Some Sample.bob) = [].
Proof.
  split; [apply list_elem_of_here|]. repeat split; reflexivity.
Qed.

(** ** The projects offered to a user *)

(** C10.  Every project in the list [fetchProjects] gives a caller is the
    columns of a project of the store that the caller may read and whose
    [is_active] is true; hence, project ids being unique, a project that is
    not active appears in nobody's selection, assigned or not. *)
Theorem fetchProjects_active (d : db) (uid : option uuid) :
  (forall v, v ∈ UserDashboard.fetchProjects d uid ->
     exists p, p ∈ projects d /\ v = UserDashboard.project_columns p
               /\ Project.is_active p = true
               /\ Policy.projects_select d uid p = true)
  /\ (NoDup (map Project.id (projects d)) ->
      forall p, p ∈ projects d -> Project.is_active p = false ->
      forall v, v ∈ UserDashboard.fetchProjects d uid -> UserDashboard.id v <> Project.id p).
Proof.
  assert (forall v, v ∈ UserDashboard.fetchProjects d uid ->
            exists p, p ∈ projects d /\ v = UserDashboard.project_columns p
                      /\ Project.is_active p = true
                      /\ Policy.projects_select d uid p = true) as Hactive.
  { intros v Hv. unfold UserDashboard.fetchProjects in Hv.
    apply list_elem_of_fmap in Hv as (p & -> & Hp).
    apply elem_of_List_filter in Hp as [Hp Hsel].
    apply andb_true_iff in Hsel as [Hpol Hact]. by exists p. }
  split; [exact Hactive|].
  intros Hnd p Hp Hoff v Hv Hid.
  destruct (Hactive v Hv) as (q & Hq & -> & Hon & _). simpl in Hid.
  rewrite (NoDup_map_inj Project.id (projects d) q p Hnd Hq Hp Hid) in Hon.
  congruence.
Qed.

Lemma fetchProjects_active_witness :
  assigned Sample.team (Some Sample.alice) Sample.archive = true
  /\ forall v, v ∈ UserDashboard.fetchProjects Sample.team (Some Sample.alice) ->
               UserDashboard.id v <> Sample.archive.
Proof.
  split; [reflexivity|].
  refine (proj2 (fetchProjects_active Sample.team (Some Sample.alice)) _
            (Sample.project_of Sample.archive "Archive" false) _ _).
  - apply (bool_decide_unpack _). vm_compute. exact I.
  - apply elem_of_cons. right. apply list_elem_of_here.
  - reflexivity.
Defined.

(** ** Administrators *)

Lemma has_role_Some (d : db) (uid : option uuid) (r : app_role) :
  has_role d uid r = true -> exists a, uid = Some a.
Proof.
  destruct uid as [a|]; [by exists a|].
  unfold has_role. intros H. apply existsb_elem_of in H as (x & _ & H). discriminate.
Qed.

(** C7.  For a caller with the admin role the read policies of [projects],
    [project_assignments] and [time_entries] admit every row, whatever the
    assignments in the store; and an insert into [time_entries] of a row
    whose [user_id] is not the caller fails. *)
Theorem admin_reads_all_inserts_own (d : db) (a : uuid) :
  has_role d (Some a) admin = true ->
  (forall assignments p,
      Policy.projects_select (set_project_assignments d assignments) (Some a) p = true)
  /\ (forall assignments x,
        Policy.project_assignments_select (set_project_assignments d assignments) (Some a) x
        = true)
  /\ (forall assignments e,
        Policy.time_entries_select (set_project_assignments d assignments) (Some a) e = true)
  /\ (forall new_id now v,
        NewTimeEntry.user_id v <> Some a ->
        Policy.time_entries_insert (Some a) (NewTimeEntry.user_id v) = false
        /\ exists err, insert_time_entry d (Some a) new_id now v = Err err).
Proof.
  intros Hrole.
  assert (forall l, has_role (set_project_assignments d l) (Some a) admin = true) as Hl
    by (intros l; exact Hrole).
  split; [|split; [|split]].
  - intros l p. unfold Policy.projects_select. rewrite (Hl l). apply orb_true_r.
  - intros l x. unfold Policy.project_assignments_select. rewrite (Hl l). apply orb_true_r.
  - intros l e. unfold Policy.time_entries_select. rewrite (Hl l). apply orb_true_r.
  - intros new_id now v Hne. split.
    + unfold Policy.time_entries_insert.
      destruct (NewTimeEntry.user_id v) as [o|]; [|done].
      apply not_true_is_false. rewrite sql_eq_true. congruence.
    + destruct (insert_time_entry d (Some a) new_id now v) as [d'|err] eqn:Hins;
        [|by exists err].
      apply insert_time_entry_Ok in Hins as (owner & _ & _ & Hu & Hv & _).
      congruence.
Qed.

Lemma admin_reads_all_inserts_own_witness :
  Policy.time_entries_select Sample.team_both_logged (Some Sample.root)
    (Sample.finished "t2" Sample.bob Sample.website 0 (30 * Sample.minute)) = true
  /\ exists err,
       insert_time_entry Sample.team (Some Sample.root) "t9" 7
         {| NewTimeEntry.user_id := Some Sample.bob;
            NewTimeEntry.project_id := Sample.website;
            NewTimeEntry.description := Some "";
            NewTimeEntry.start_time := ts_ok 0;
            NewTimeEntry.end_time := Some (ts_ok (60 * Sample.minute));
            NewTimeEntry.is_running := false |} = Err err.
Proof.
  split.
  - apply (proj1 (proj2 (proj2
             (admin_reads_all_inserts_own Sample.team_both_logged Sample.root eq_refl)))
             (project_assignments Sample.team_both_logged)).
  - apply (proj2 (proj2 (proj2
             (admin_reads_all_inserts_own Sample.team Sample.root eq_refl)))).
    discriminate.
Defined.

(** ** Assignments *)

Lemma assignment_count_zero (d : db) (project u : uuid) :
  assignment_exists d project u = false -> assignment_count d project u = 0%nat.
Proof.
  unfold assignment_exists, assignment_count.
  induction (project_assignments d) as [|x r IH]; simpl; [done|].
  destruct (_ && _); simpl; [discriminate|]. exact IH.
Qed.

(** C8.  [assignUserToProject] fails, and leaves the store as it was, when
    an assignment of that user to that project exists; for an admin the
    failure is the violation of the unique constraint.  When none exists, an
    admin's call with a fresh row id, for a project and users known to the
    store, adds one assignment, the only one of that pair. *)
Theorem assignUserToProject_unique (d : db) (uid : option uuid) (new_id : uuid)
    (now : timestamptz) (project u : uuid) :
  (assignment_exists d project u = true ->
   after d (AdminDashboard.assignUserToProject d uid new_id now project u) = d
   /\ exists err,
        AdminDashboard.assignUserToProject d uid new_id now project u = Err err
        /\ (has_role d uid admin = true -> err = unique_violation))
  /\ (assignment_exists d project u = false ->
      forall a, uid = Some a ->
      has_role d uid admin = true ->
      existsb (fun x => bool_decide (Assignment.id x = new_id)) (project_assignments d) = false ->
      project_exists d project = true ->
      user_exists d u = true ->
      user_exists d a = true ->
      exists row d',
        AdminDashboard.assignUserToProject d uid new_id now project u = Ok d'
        /\ d' = set_project_assignments d (project_assignments d ++ [row])
        /\ Assignment.project_id row = project
        /\ Assignment.user_id row = u
        /\ Assignment.assigned_by row = a
        /\ assignment_count d' project u = 1%nat).
Proof.
  unfold AdminDashboard.assignUserToProject, Policy.project_assignments_write. split.
  - intros Hex. destruct (has_role d uid admin) eqn:Hrole; simpl.
    + destruct (has_role_Some _ _ _ Hrole) as [a ->].
      rewrite Hex, andb_false_r. simpl. split; [done|].
      exists unique_violation. by split.
    + split; [done|]. exists insufficient_privilege. by split.
  - intros Hex a -> Hrole Hfresh Hp Hu Ha.
    rewrite Hrole, Hfresh, Hex, Hp, Hu, Ha. simpl.
    do 2 eexists. split; [reflexivity|]. split; [reflexivity|]. simpl.
    repeat split.
    unfold assignment_count. simpl. rewrite List.filter_app, length_app.
    fold (assignment_count d project u). rewrite (assignment_count_zero _ _ _ Hex).
    simpl. by rewrite !bool_decide_true.
Qed.

Lemma assignUserToProject_unique_witness :
  (exists err,
     AdminDashboard.assignUserToProject Sample.team (Some Sample.root) "a9" 7
       Sample.website Sample.alice = Err err
     /\ err = unique_violation)
  /\ (exists row d',
        AdminDashboard.assignUserToProject Sample.team (Some Sample.root) "a9" 7
          Sample.website Sample.bob = Ok d'
        /\ d' = set_project_assignments Sample.team (project_assignments Sample.team ++ [row])
        /\ assignment_count d' Sample.website Sample.bob = 1%nat).
Proof.
  split.
  - destruct (proj1 (assignUserToProject_unique Sample.team (Some Sample.root) "a9" 7
                       Sample.website Sample.alice) eq_refl)
      as (_ & err & Herr & Hkind).
    exists err. split; [exact Herr|]. apply Hkind. reflexivity.
  - destruct (proj2 (assignUserToProject_unique Sample.team (Some Sample.root) "a9" 7
                       Sample.website Sample.bob) eq_refl Sample.root
                eq_refl eq_refl eq_refl eq_refl eq_refl eq_refl)
      as (row & d' & Hrun & Hd' & _ & _ & _ & Hcount).
    exists row, d'. by repeat split.
Defined.

(** ** Durations are derived *)

Lemma run_entry_derived (d : db) (uid : option uuid) (c : call) :
  (forall e, e ∈ time_entries d -> entry_derived e) ->
  forall e, e ∈ time_entries (after d (run d uid c)) -> entry_derived e.
Proof.
  intros Hinv e. destruct c; simpl.
  - destruct (UserDashboard.startTimer _ _ _ _ _ _ _) as [d'|err] eqn:Hrun; simpl; [|apply Hinv].
    apply startTimer_Ok in Hrun as (owner & _ & _ & _ & _ & ->). simpl.
    rewrite elem_of_app, list_elem_of_singleton. intros [He | ->]; [by apply Hinv|].
    by split.
  - rewrite stopTimer_closed. destruct (forallb _ _); simpl; [|apply Hinv].
    rewrite list_elem_of_fmap. intros (e0 & -> & He0).
    destruct (own_entry uid entryId e0); [|by apply Hinv].
    split; [done|]. discriminate.
  - destruct (UserDashboard.createManualEntry _ _ _ _ _) as [d'|err] eqn:Hrun; simpl;
      [|apply Hinv].
    apply insert_time_entry_Ok in Hrun
      as (owner & start & stop & _ & _ & _ & _ & _ & _ & _ & _ & ->). simpl.
    rewrite elem_of_app, list_elem_of_singleton. intros [He | ->]; [by apply Hinv|].
    split; [done|]. discriminate.
  - rewrite createProject_time_entries. apply Hinv.
  - rewrite assignUserToProject_time_entries. apply Hinv.
  - rewrite toggleProjectStatus_time_entries. apply Hinv.
Qed.

Lemma replay_entry_derived (d : db) (h : list (option uuid * call)) :
  (forall e, e ∈ time_entries d -> entry_derived e) ->
  forall e, e ∈ time_entries (replay d h) -> entry_derived e.
Proof.
  revert d. induction h as [|[uid c] r IH]; intros d Hinv; [exact Hinv|].
  simpl. apply IH. by apply run_entry_derived.
Qed.

(** C6.  Starting from a store without time entries, after any history of
    dashboard calls every entry with an [end_time] has as [duration_minutes]
    the distance between its two times rounded to the nearest whole minute,
    and every entry without [end_time], and every running entry, has none.
    No call carries a duration: the store computes it from the two times. *)
Theorem duration_minutes_derived (d0 : db) (h : list (option uuid * call)) (e : TimeEntry.row) :
  time_entries d0 = [] ->
  e ∈ time_entries (replay d0 h) ->
  (forall t, TimeEntry.end_time e = Some t ->
     TimeEntry.duration_minutes e = Some (minutes_between (TimeEntry.start_time e) t)
     /\ 2 * Z.abs (usec_per_minute * minutes_between (TimeEntry.start_time e) t
                   - (t - TimeEntry.start_time e)) <= usec_per_minute)
  /\ (TimeEntry.end_time e = None \/ TimeEntry.is_running e = true ->
      TimeEntry.duration_minutes e = None).
Proof.
  intros Hempty He.
  destruct (replay_entry_derived d0 h) with (e := e) as [Hdur Hrun]; [|done|].
  { rewrite Hempty. intros e0 He0. by apply elem_of_nil in He0. }
  split.
  - intros t Ht. rewrite Hdur, Ht. split; [done|]. apply minutes_between_nearest.
  - intros [Hend | Hrunning].
    + by rewrite Hdur, Hend.
    + by rewrite Hdur, (Hrun Hrunning).
Qed.

Lemma duration_minutes_derived_witness :
  exists e, e ∈ time_entries (replay Sample.team Sample.alice_day)
            /\ TimeEntry.id e = "t1"
            /\ TimeEntry.end_time e = Some (70 * Sample.second)
            /\ TimeEntry.duration_minutes e = Some 1.
Proof.
  exists (stopped_row (70 * Sample.second) 71
            {| TimeEntry.id := "t1"; TimeEntry.user_id := Sample.alice;
               TimeEntry.project_id := Sample.website;
               TimeEntry.description := Some "";
               TimeEntry.start_time := 10; TimeEntry.end_time := None;
               TimeEntry.duration_minutes := None; TimeEntry.is_running := true;
               TimeEntry.created_at := 11; TimeEntry.updated_at := 11 |}).
  assert (stopped_row (70 * Sample.second) 71
            {| TimeEntry.id := "t1"; TimeEntry.user_id := Sample.alice;
               TimeEntry.project_id := Sample.website;
               TimeEntry.description := Some "";
               TimeEntry.start_time := 10; TimeEntry.end_time := None;
               TimeEntry.duration_minutes := None; TimeEntry.is_running := true;
               TimeEntry.created_at := 11; TimeEntry.updated_at := 11 |}
          ∈ time_entries (replay Sample.team Sample.alice_day)) as Hin
    by (vm_compute; apply list_elem_of_here).
  split; [exact Hin|]. split; [reflexivity|]. split; [reflexivity|].
  exact (proj1 (proj1 (duration_minutes_derived Sample.team Sample.alice_day _ eq_refl Hin)
                  (70 * Sample.second) eq_refl)).
Defined.

(** ** The admin summary *)

Lemma append_inj_length (a b c e : string) :
  String.length a = String.length c -> (a ++ b)%string = (c ++ e)%string -> a = c /\ b = e.
Proof.
  revert c. induction a as [|x a IH]; intros [|y c] Hlen Heq; simpl in *; try discriminate.
  - done.
  - injection Heq as -> Heq. injection Hlen as Hlen.
    destruct (IH c Hlen Heq) as [-> ->]. done.
Qed.

Lemma summary_key_inj (e1 e2 : AdminDashboard.EntryColumns) :
  is_uuid (AdminDashboard.e_user_id e1) ->
  is_uuid (AdminDashboard.e_user_id e2) ->
  AdminDashboard.summary_key e1 = AdminDashboard.summary_key e2 ->
  AdminDashboard.e_user_id e1 = AdminDashboard.e_user_id e2
  /\ AdminDashboard.e_project_id e1 = AdminDashboard.e_project_id e2.
Proof.
  unfold is_uuid, AdminDashboard.summary_key. intros H1 H2 Hk.
  apply append_inj_length in Hk as [Hu Hp]; [|congruence].
  split; [done|]. by injection Hp.
Qed.

Lemma new_Map_snoc {V} (pairs : list (string * V)) (k : string) (v : V) :
  AdminDashboard.new_Map (pairs ++ [(k, v)]) = <[k := v]> (AdminDashboard.new_Map pairs).
Proof. unfold AdminDashboard.new_Map. by rewrite foldl_snoc. Qed.

Lemma new_Map_Some {V} (pairs : list (string * V)) (k : string) (v : V) :
  AdminDashboard.new_Map pairs !! k = Some v -> (k, v) ∈ pairs.
Proof.
  induction pairs as [|[k' v'] r IH] using rev_ind.
  - unfold AdminDashboard.new_Map. simpl. by rewrite lookup_empty.
  - rewrite new_Map_snoc, elem_of_app, list_elem_of_singleton.
    destruct (decide (k' = k)) as [->|Hne].
    + rewrite lookup_insert_eq. intros [= ->]. by right.
    + rewrite lookup_insert_ne by done. intros H. left. by apply IH.
Qed.

Lemma new_Map_is_Some {V} (pairs : list (string * V)) (k : string) :
  is_Some (AdminDashboard.new_Map pairs !! k) <-> exists v, (k, v) ∈ pairs.
Proof.
  induction pairs as [|[k' v'] r IH] using rev_ind.
  - unfold AdminDashboard.new_Map. simpl. rewrite lookup_empty. split.
    + by intros [? ?].
    + intros [v Hv]. by apply elem_of_nil in Hv.
  - rewrite new_Map_snoc. destruct (decide (k' = k)) as [->|Hne].
    + rewrite lookup_insert_eq. split; [|by eauto].
      intros _. exists v'. apply elem_of_app. right. by apply list_elem_of_singleton.
    + rewrite lookup_insert_ne, IH by done. split; intros [v Hv]; exists v.
      * apply elem_of_app. by left.
      * apply elem_of_app in Hv as [Hv|Hv]; [done|].
        apply list_elem_of_singleton in Hv. congruence.
Qed.

Lemma get_Some_elem_of {V} (key : string) (o : list (string * V)) (v : V) :
  AdminDashboard.get key o = Some v -> (key, v) ∈ o.
Proof.
  induction o as [|[k x] r IH]; simpl; [done|].
  case_bool_decide as Hk.
  - intros [= ->]. subst k. apply list_elem_of_here.
  - intros H. apply elem_of_cons. right. by apply IH.
Qed.

Lemma get_None_keys {V} (key : string) (o : list (string * V)) :
  AdminDashboard.get key o = None <-> key ∉ map fst o.
Proof.
  induction o as [|[k x] r IH]; simpl.
  - split; [|done]. intros _ H. by apply elem_of_nil in H.
  - rewrite not_elem_of_cons. case_bool_decide as Hk.
    + subst k. split; [done|]. intros [H _]. done.
    + rewrite IH. split; [|tauto]. intros H. split; [congruence|done].
Qed.

Lemma get_is_Some_keys {V} (key : string) (o : list (string * V)) :
  is_Some (AdminDashboard.get key o) <-> key ∈ map fst o.
Proof.
  destruct (AdminDashboard.get key o) as [v|] eqn:H.
  - split; [|by eauto]. intros _.
    apply get_Some_elem_of in H. apply list_elem_of_fmap. by exists (key, v).
  - apply get_None_keys in H. split; [|done]. by intros [? ?].
Qed.

Lemma alter_keys {V} (f : V -> V) (key : string) (o : list (string * V)) :
  map fst (AdminDashboard.alter f key o) = map fst o.
Proof.
  induction o as [|[k x] r IH]; simpl; [done|].
  case_bool_decide; simpl; [done|]. by rewrite IH.
Qed.

Lemma alter_elem_of {V} (f : V -> V) (key : string) (o : list (string * V))
    (k : string) (v : V) :
  NoDup (map fst o) ->
  (k, v) ∈ AdminDashboard.alter f key o ->
  (k <> key /\ (k, v) ∈ o) \/ (k = key /\ exists v0, (key, v0) ∈ o /\ v = f v0).
Proof.
  induction o as [|[k' x] r IH]; simpl; [by intros _ H; apply elem_of_nil in H|].
  intros Hnd. apply NoDup_cons in Hnd as [Hk' Hnd].
  case_bool_decide as Hk.
  - subst k'. rewrite elem_of_cons. intros [[= -> ->]|H].
    + right. split; [done|]. exists x. split; [apply list_elem_of_here|done].
    + left. split; [|apply elem_of_cons; by right].
      intros ->. apply Hk'. apply list_elem_of_fmap. by exists (key, v).
  - rewrite elem_of_cons. intros [[= -> ->]|H].
    + left. split; [done|]. apply list_elem_of_here.
    + destruct (IH Hnd H) as [[Hne Hin]|[-> (v0 & Hin & ->)]].
      * left. split; [done|]. apply elem_of_cons. by right.
      * right. split; [done|]. exists v0. split; [|done]. apply elem_of_cons. by right.
Qed.

Lemma get_app_None {V} (key : string) (o : list (string * V)) (v : V) :
  AdminDashboard.get key o = None ->
  AdminDashboard.get key (o ++ [(key, v)]) = Some v.
Proof.
  induction o as [|[k x] r IH]; simpl.
  - by rewrite bool_decide_true.
  - case_bool_decide; [discriminate|]. exact IH.
Qed.

Lemma alter_app_None {V} (f : V -> V) (key : string) (o : list (string * V)) (v : V) :
  AdminDashboard.get key o = None ->
  AdminDashboard.alter f key (o ++ [(key, v)]) = o ++ [(key, f v)].
Proof.
  induction o as [|[k x] r IH]; simpl.
  - by rewrite bool_decide_true.
  - case_bool_decide; [discriminate|]. intros Hr. by rewrite IH.
Qed.

Section Summary.
Variable num : Type.
Variable zero : num.
Variable add : num -> num -> num.
Variable div60 : Z -> num.
Variable profilesMap : gmap string Profile.row.
Variable projectsMap : gmap string Project.row.

Lemma group_total_snoc (key : string) (l : list AdminDashboard.EntryColumns)
    (e : AdminDashboard.EntryColumns) :
  AdminDashboard.group_total num zero add div60 key (l ++ [e])
  = if bool_decide (AdminDashboard.summary_key e = key)
    then add (AdminDashboard.group_total num zero add div60 key l) (AdminDashboard.hours_of num div60 e) else AdminDashboard.group_total num zero add div60 key l.
Proof.
  unfold AdminDashboard.group_total. rewrite List.filter_app. cbn [List.filter].
  case_bool_decide.
  - rewrite map_app. cbn [map]. by rewrite foldl_snoc.
  - by rewrite app_nil_r.
Qed.

Lemma group_total_none (key : string) (l : list AdminDashboard.EntryColumns) :
  (forall e, e ∈ l -> AdminDashboard.summary_key e <> key) -> AdminDashboard.group_total num zero add div60 key l = zero.
Proof.
  intros Hno. unfold AdminDashboard.group_total.
  replace (List.filter _ l) with (@nil AdminDashboard.EntryColumns); [done|].
  induction l as [|x r IH]; simpl; [done|].
  rewrite bool_decide_false by (apply Hno, list_elem_of_here).
  apply IH. intros e He. apply Hno. apply elem_of_cons. by right.
Qed.

(** The three cases of one round of the loop. *)
Lemma summary_step_cases (summary : list (string * AdminDashboard.TimeEntrySummary num))
    (entry : AdminDashboard.EntryColumns) :
  let key := AdminDashboard.summary_key entry in
  (is_Some (AdminDashboard.get key summary)
   /\ AdminDashboard.summary_step num zero add div60 profilesMap projectsMap summary entry
      = AdminDashboard.alter (AdminDashboard.add_hours num add (AdminDashboard.hours_of num div60 entry)) key summary)
  \/ (AdminDashboard.get key summary = None
      /\ exists profile project,
           profilesMap !! AdminDashboard.e_user_id entry = Some profile
           /\ projectsMap !! AdminDashboard.e_project_id entry = Some project
           /\ AdminDashboard.summary_step num zero add div60 profilesMap projectsMap summary entry
              = summary ++
                [(key, {| AdminDashboard.user_id := AdminDashboard.e_user_id entry;
                          AdminDashboard.project_id := AdminDashboard.e_project_id entry;
                          AdminDashboard.total_hours := add zero (AdminDashboard.hours_of num div60 entry);
                          AdminDashboard.user_name := AdminDashboard.display_name profile;
                          AdminDashboard.project_name := Project.name project |})])
  \/ (AdminDashboard.get key summary = None
      /\ (profilesMap !! AdminDashboard.e_user_id entry = None
          \/ projectsMap !! AdminDashboard.e_project_id entry = None)
      /\ AdminDashboard.summary_step num zero add div60 profilesMap projectsMap summary entry = summary).
Proof.
  intros key. unfold AdminDashboard.summary_step. fold key.
  destruct (AdminDashboard.get key summary) as [s|] eqn:Hget.
  - left. split; [by eauto|]. by rewrite Hget.
  - right.
    destruct (profilesMap !! AdminDashboard.e_user_id entry) as [profile|] eqn:Hprofile.
    + destruct (projectsMap !! AdminDashboard.e_project_id entry) as [project|] eqn:Hproject.
      * left. split; [done|]. exists profile, project. split; [done|]. split; [done|].
        rewrite (get_app_None key summary _ Hget).
        by rewrite (alter_app_None _ key summary _ Hget).
      * right. split; [done|]. split; [by right|]. by rewrite Hget.
    + right. split; [done|]. split; [by left|]. by rewrite Hget.
Qed.

(** What holds of the [summary] object after the loop has gone through
    [l]: its keys are distinct; each value is the group of an entry of [l]
    whose profile and project were found, labelled from them, with the
    total of the entries of [l] under its key; and every entry of [l] whose
    profile and project were found has its group. *)
Lemma summary_loop (l : list AdminDashboard.EntryColumns) :
  (forall e, e ∈ l -> is_uuid (AdminDashboard.e_user_id e)) ->
  NoDup (map fst (foldl (AdminDashboard.summary_step num zero add div60 profilesMap projectsMap) [] l))
  /\ (forall k s, (k, s) ∈ foldl (AdminDashboard.summary_step num zero add div60 profilesMap projectsMap) [] l ->
        exists e profile project,
          e ∈ l /\ k = AdminDashboard.summary_key e
          /\ AdminDashboard.user_id s = AdminDashboard.e_user_id e
          /\ AdminDashboard.project_id s = AdminDashboard.e_project_id e
          /\ profilesMap !! AdminDashboard.e_user_id e = Some profile
          /\ projectsMap !! AdminDashboard.e_project_id e = Some project
          /\ AdminDashboard.user_name s = AdminDashboard.display_name profile
          /\ AdminDashboard.project_name s = Project.name project
          /\ AdminDashboard.total_hours s = AdminDashboard.group_total num zero add div60 k l)
  /\ (forall e, e ∈ l ->
        is_Some (profilesMap !! AdminDashboard.e_user_id e) ->
        is_Some (projectsMap !! AdminDashboard.e_project_id e) ->
        AdminDashboard.summary_key e ∈ map fst (foldl (AdminDashboard.summary_step num zero add div60 profilesMap projectsMap) [] l)).
Proof.
  induction l as [|x l IH] using rev_ind; intros Huuid.
  { simpl. split; [apply NoDup_nil_2|]. split.
    - intros k s H. by apply elem_of_nil in H.
    - intros e H. by apply elem_of_nil in H. }
  destruct IH as (Hnd & Hgroups & Hcover).
  { intros e He. apply Huuid. apply elem_of_app. by left. }
  rewrite foldl_snoc.
  destruct (summary_step_cases (foldl (AdminDashboard.summary_step num zero add div60 profilesMap projectsMap) [] l) x)
    as [[Hsome ->] | [(Hnone & profile & project & Hprofile & Hproject & ->)
                     | (Hnone & Hmissing & ->)]].
  - (* the group of [x] exists *)
    split; [by rewrite alter_keys|]. split.
    + intros k s Hin. apply alter_elem_of in Hin as [[Hne Hin]|[-> (s0 & Hin & ->)]];
        [| |done].
      * destruct (Hgroups k s Hin)
          as (e & pr & pj & He & Hk & Hu & Hp & Hpr & Hpj & Hn & Hpn & Ht).
        exists e, pr, pj. rewrite elem_of_app. repeat split; try done; [by left|].
        rewrite group_total_snoc, bool_decide_false by done. exact Ht.
      * destruct (Hgroups _ s0 Hin)
          as (e & pr & pj & He & Hk & Hu & Hp & Hpr & Hpj & Hn & Hpn & Ht).
        exists e, pr, pj. rewrite elem_of_app. repeat split; try done; [by left|].
        simpl. rewrite group_total_snoc, bool_decide_true by done. by rewrite Ht.
    + intros e He Hpr Hpj. rewrite alter_keys.
      apply elem_of_app in He as [He|He]; [by apply Hcover|].
      apply list_elem_of_singleton in He as ->. by apply get_is_Some_keys.
  - (* the group of [x] is created *)
    apply get_None_keys in Hnone.
    split; [|split].
    + rewrite map_app. simpl. apply NoDup_app. split; [done|]. split.
      * intros k Hk Hx. apply list_elem_of_singleton in Hx as ->. done.
      * apply NoDup_singleton.
    + intros k s Hin. apply elem_of_app in Hin as [Hin|Hin].
      * destruct (Hgroups k s Hin)
          as (e & pr & pj & He & Hk & Hu & Hp & Hpr & Hpj & Hn & Hpn & Ht).
        exists e, pr, pj. rewrite elem_of_app. repeat split; try done; [by left|].
        rewrite group_total_snoc, bool_decide_false; [exact Ht|].
        intros Hx. apply Hnone. rewrite Hx. apply list_elem_of_fmap. by exists (k, s).
      * apply list_elem_of_singleton in Hin. injection Hin as -> ->.
        exists x, profile, project. rewrite elem_of_app, list_elem_of_singleton.
        repeat split; try done; [by right|]. simpl.
        rewrite group_total_snoc, bool_decide_true by done. f_equal. symmetry.
        apply group_total_none. intros e He Hk. apply Hnone.
        rewrite <- Hk. apply Hcover; [done| |].
        -- destruct (summary_key_inj e x) as [-> _]; [| |done|by eauto].
           ++ apply Huuid. apply elem_of_app. by left.
           ++ apply Huuid. apply elem_of_app. right. by apply list_elem_of_singleton.
        -- destruct (summary_key_inj e x) as [_ ->]; [| |done|by eauto].
           ++ apply Huuid. apply elem_of_app. by left.
           ++ apply Huuid. apply elem_of_app. right. by apply list_elem_of_singleton.
    + intros e He Hpr Hpj. rewrite map_app, elem_of_app.
      apply elem_of_app in He as [He|He]; [left; by apply Hcover|].
      apply list_elem_of_singleton in He as ->. right. simpl.
      by apply list_elem_of_singleton.
  - (* [x] is skipped *)
    apply get_None_keys in Hnone.
    split; [done|]. split.
    + intros k s Hin.
      destruct (Hgroups k s Hin)
        as (e & pr & pj & He & Hk & Hu & Hp & Hpr & Hpj & Hn & Hpn & Ht).
      exists e, pr, pj. rewrite elem_of_app. repeat split; try done; [by left|].
      rewrite group_total_snoc, bool_decide_false; [exact Ht|].
      intros Hx. apply Hnone. rewrite Hx. apply list_elem_of_fmap. by exists (k, s).
    + intros e He Hpr Hpj.
      apply elem_of_app in He as [He|He]; [by apply Hcover|].
      apply list_elem_of_singleton in He as ->.
      destruct Hmissing as [Hm|Hm]; rewrite Hm in *; [by destruct Hpr | by destruct Hpj].
Qed.
End Summary.

Lemma group_total_pair (num : Type) (zero : num) (add : num -> num -> num) (div60 : Z -> num)
    (u project : string) (l : list AdminDashboard.EntryColumns) :
  is_uuid u ->
  (forall e, e ∈ l -> is_uuid (AdminDashboard.e_user_id e)) ->
  AdminDashboard.group_total num zero add div60 (u ++ "-" ++ project)%string l
  = AdminDashboard.pair_total num zero add div60 u project l.
Proof.
  intros Hu Hl. unfold AdminDashboard.group_total, AdminDashboard.pair_total.
  do 2 f_equal. induction l as [|x r IH]; [done|]. cbn [List.filter].
  rewrite IH by (intros e He; apply Hl, elem_of_cons; by right).
  assert (is_uuid (AdminDashboard.e_user_id x)) as Hx by apply Hl, list_elem_of_here.
  destruct (decide (AdminDashboard.e_user_id x = u
                    /\ AdminDashboard.e_project_id x = project)) as [[H1 H2]|Hne].
  - rewrite !bool_decide_true; [done..|].
    unfold AdminDashboard.summary_key. by rewrite H1, H2.
  - rewrite (bool_decide_false (AdminDashboard.summary_key x = _)).
    + destruct (decide (AdminDashboard.e_user_id x = u)) as [H1|H1].
      * rewrite (bool_decide_true _ H1), bool_decide_false; [done|]. tauto.
      * by rewrite (bool_decide_false _ H1).
    + intros Hk. apply Hne.
      apply (summary_key_inj x
               {| AdminDashboard.e_user_id := u; AdminDashboard.e_project_id := project;
                  AdminDashboard.e_duration_minutes := None |}); done.
Qed.

Lemma NoDup_groups {V P} (key_of : P -> string) (pair_of : V -> P)
    (o : list (string * V)) :
  NoDup (map fst o) ->
  (forall k s, (k, s) ∈ o -> k = key_of (pair_of s)) ->
  NoDup (map pair_of (map snd o)).
Proof.
  induction o as [|[k s] r IH]; simpl; intros Hnd Hkey; [apply NoDup_nil_2|].
  apply NoDup_cons in Hnd as [Hk Hnd]. apply NoDup_cons. split.
  - intros Hin. apply Hk.
    apply list_elem_of_fmap in Hin as (s' & Hs' & Hin).
    apply list_elem_of_fmap in Hin as ([k' s''] & -> & Hin). simpl in Hs'.
    apply list_elem_of_fmap. exists (k', s''). split; [|done]. simpl.
    rewrite (Hkey k s) by apply list_elem_of_here.
    rewrite (Hkey k' s'') by (apply elem_of_cons; by right).
    by rewrite Hs'.
  - apply IH; [done|]. intros k' s' Hin. apply Hkey. apply elem_of_cons. by right.
Qed.

(** The grouping of [summarize], on the three fetched lists. *)
Lemma summarize_groups (num : Type) (zero : num) (add : num -> num -> num) (div60 : Z -> num)
    (entries : list AdminDashboard.EntryColumns)
    (profilesData : list Profile.row) (projectsData : list Project.row) :
  (forall e, e ∈ entries -> is_uuid (AdminDashboard.e_user_id e)) ->
  NoDup (map (fun s => (AdminDashboard.user_id s, AdminDashboard.project_id s))
             (AdminDashboard.summarize num zero add div60 entries profilesData projectsData))
  /\ (forall s,
        s ∈ AdminDashboard.summarize num zero add div60 entries profilesData projectsData ->
        exists profile project,
          profile ∈ profilesData
          /\ Profile.user_id profile = AdminDashboard.user_id s
          /\ project ∈ projectsData
          /\ Project.id project = AdminDashboard.project_id s
          /\ AdminDashboard.user_name s = AdminDashboard.display_name profile
          /\ AdminDashboard.project_name s = Project.name project
          /\ AdminDashboard.total_hours s
             = AdminDashboard.pair_total num zero add div60
                 (AdminDashboard.user_id s) (AdminDashboard.project_id s) entries)
  /\ (forall e, e ∈ entries ->
        (exists profile, profile ∈ profilesData
                         /\ Profile.user_id profile = AdminDashboard.e_user_id e) ->
        (exists project, project ∈ projectsData
                         /\ Project.id project = AdminDashboard.e_project_id e) ->
        exists s,
          s ∈ AdminDashboard.summarize num zero add div60 entries profilesData projectsData
          /\ AdminDashboard.user_id s = AdminDashboard.e_user_id e
          /\ AdminDashboard.project_id s = AdminDashboard.e_project_id e).
Proof.
  intros Huuid. unfold AdminDashboard.summarize.
  destruct (summary_loop num zero add div60
              (AdminDashboard.new_Map (map (fun p => (Profile.user_id p, p)) profilesData))
              (AdminDashboard.new_Map (map (fun p => (Project.id p, p)) projectsData))
              entries Huuid) as (Hnd & Hgroups & Hcover).
  split; [|split].
  - apply (NoDup_groups (fun up => (up.1 ++ "-" ++ up.2)%string)); [done|].
    intros k s Hin.
    destruct (Hgroups k s Hin) as (e & _ & _ & _ & -> & -> & -> & _). done.
  - intros s Hs. apply list_elem_of_fmap in Hs as ([k s'] & -> & Hin). simpl.
    destruct (Hgroups k s' Hin)
      as (e & pr & pj & He & Hk & Hu & Hp & Hpr & Hpj & Hn & Hpn & Ht).
    apply new_Map_Some, list_elem_of_fmap in Hpr as (pr' & [= Hpru <-] & Hprin).
    apply new_Map_Some, list_elem_of_fmap in Hpj as (pj' & [= Hpju <-] & Hpjin).
    exists pr, pj. rewrite Hu, Hp. repeat split; try done.
    rewrite Ht, Hk. apply group_total_pair; [by apply Huuid | done].
  - intros e He (pr & Hprin & Hpru) (pj & Hpjin & Hpju).
    assert (AdminDashboard.summary_key e
            ∈ map fst
                (foldl (AdminDashboard.summary_step num zero add div60
                          (AdminDashboard.new_Map
                             (map (fun p => (Profile.user_id p, p)) profilesData))
                          (AdminDashboard.new_Map
                             (map (fun p => (Project.id p, p)) projectsData)))
                       [] entries)) as Hkey.
    { apply Hcover; [done| |]; apply new_Map_is_Some.
      - exists pr. apply list_elem_of_fmap. exists pr. by rewrite Hpru.
      - exists pj. apply list_elem_of_fmap. exists pj. by rewrite Hpju. }
    apply list_elem_of_fmap in Hkey as ([k s] & Hk & Hin). simpl in Hk. subst k.
    exists s. split; [apply list_elem_of_fmap; by exists (AdminDashboard.summary_key e, s)|].
    destruct (Hgroups _ s Hin) as (e' & _ & _ & He' & Hk & Hu & Hp & _).
    rewrite Hu, Hp.
    destruct (summary_key_inj e e') as [-> ->]; [by apply Huuid..|done|done].
Qed.

Lemma display_name_fallback (profile : Profile.row) :
  Profile.first_name profile = None ->
  Profile.last_name profile = None ->
  AdminDashboard.display_name profile = Profile.email profile.
Proof.
  unfold AdminDashboard.display_name. intros -> ->. reflexivity.
Qed.

Lemma fetched_entries_not_null (d : db) (uid : option uuid) (c : AdminDashboard.EntryColumns) :
  c ∈ AdminDashboard.fetched_entries d uid -> AdminDashboard.e_duration_minutes c <> None.
Proof.
  unfold AdminDashboard.fetched_entries. rewrite list_elem_of_fmap.
  intros (e & -> & He). apply elem_of_List_filter in He as [_ He].
  apply andb_true_iff in He as [_ He]. by apply bool_decide_eq_true in He.
Qed.

Lemma fetched_entries_without_null (d : db) (uid : option uuid) :
  AdminDashboard.fetched_entries
    (set_time_entries d
       (List.filter (fun e => bool_decide (TimeEntry.duration_minutes e <> None))
                    (time_entries d))) uid
  = AdminDashboard.fetched_entries d uid.
Proof.
  unfold AdminDashboard.fetched_entries. simpl. f_equal.
  change (Policy.time_entries_select (set_time_entries d _) uid)
    with (Policy.time_entries_select d uid).
  induction (time_entries d) as [|x r IH]; [done|]. cbn [List.filter].
  destruct (bool_decide (TimeEntry.duration_minutes x <> None)) eqn:Hx.
  - cbn [List.filter]. rewrite Hx, IH. done.
  - rewrite andb_false_r. exact IH.
Qed.

(** C9 (amended).  [fetchTimeEntriesSummary] has one group for each pair of
    a user and a project (ids being uuid texts).  Each group stands for a
    profile and a project the caller could read; it is labelled with the
    profile's display name, which is the email when both names are null, and
    with the project's name, and its total is the sum, from zero and in the
    order of the table, of [duration_minutes / 60] over the fetched entries of
    that user on that project.  A fetched entry has its group when the
    profile of its owner and its project were fetched too; an entry for which
    one of them is missing is skipped.  Entries with a null duration are not
    fetched, and the summary is the same without them. *)
Theorem fetchTimeEntriesSummary_groups (num : Type) (zero : num) (add : num -> num -> num)
    (div60 : Z -> num) (d : db) (uid : option uuid) :
  (forall e, e ∈ time_entries d -> is_uuid (TimeEntry.user_id e)) ->
  NoDup (map (fun s => (AdminDashboard.user_id s, AdminDashboard.project_id s))
             (AdminDashboard.fetchTimeEntriesSummary num zero add div60 d uid))
  /\ (forall s,
        s ∈ AdminDashboard.fetchTimeEntriesSummary num zero add div60 d uid ->
        exists profile project,
          profile ∈ profiles d
          /\ Policy.profiles_select uid profile = true
          /\ Profile.user_id profile = AdminDashboard.user_id s
          /\ project ∈ projects d
          /\ Policy.projects_select d uid project = true
          /\ Project.id project = AdminDashboard.project_id s
          /\ AdminDashboard.user_name s = AdminDashboard.display_name profile
          /\ (Profile.first_name profile = None -> Profile.last_name profile = None ->
              AdminDashboard.user_name s = Profile.email profile)
          /\ AdminDashboard.project_name s = Project.name project
          /\ AdminDashboard.total_hours s
             = AdminDashboard.pair_total num zero add div60
                 (AdminDashboard.user_id s) (AdminDashboard.project_id s)
                 (AdminDashboard.fetched_entries d uid))
  /\ (forall e, e ∈ time_entries d ->
        Policy.time_entries_select d uid e = true ->
        TimeEntry.duration_minutes e <> None ->
        (exists profile, profile ∈ profiles d /\ Policy.profiles_select uid profile = true
                         /\ Profile.user_id profile = TimeEntry.user_id e) ->
        (exists project, project ∈ projects d /\ Policy.projects_select d uid project = true
                         /\ Project.id project = TimeEntry.project_id e) ->
        exists s,
          s ∈ AdminDashboard.fetchTimeEntriesSummary num zero add div60 d uid
          /\ AdminDashboard.user_id s = TimeEntry.user_id e
          /\ AdminDashboard.project_id s = TimeEntry.project_id e)
  /\ (forall c, c ∈ AdminDashboard.fetched_entries d uid ->
        AdminDashboard.e_duration_minutes c <> None)
  /\ AdminDashboard.fetchTimeEntriesSummary num zero add div60
       (set_time_entries d
          (List.filter (fun e => bool_decide (TimeEntry.duration_minutes e <> None))
                       (time_entries d))) uid
     = AdminDashboard.fetchTimeEntriesSummary num zero add div60 d uid.
Proof.
  intros Huuid. unfold AdminDashboard.fetchTimeEntriesSummary.
  destruct (summarize_groups num zero add div60
              (AdminDashboard.fetched_entries d uid)
              (AdminDashboard.fetched_profiles d uid)
              (AdminDashboard.fetched_projects d uid))
    as (Hnd & Hgroups & Hcover).
  { intros c Hc. unfold AdminDashboard.fetched_entries in Hc.
    apply list_elem_of_fmap in Hc as (e & -> & He).
    apply elem_of_List_filter in He as [He _]. simpl. by apply Huuid. }
  split; [exact Hnd|]. split; [|split; [|split]].
  - intros s Hs.
    destruct (Hgroups s Hs) as (pr & pj & Hpr & Hpru & Hpj & Hpju & Hn & Hpn & Ht).
    apply elem_of_List_filter in Hpr as [Hpr Hprsel].
    apply elem_of_List_filter in Hpj as [Hpj Hpjsel].
    exists pr, pj. repeat split; try done.
    intros H1 H2. rewrite Hn. by apply display_name_fallback.
  - intros e He Hsel Hdur (pr & Hpr & Hprsel & Hpru) (pj & Hpj & Hpjsel & Hpju).
    apply (Hcover (AdminDashboard.entry_columns e)).
    + unfold AdminDashboard.fetched_entries. apply list_elem_of_fmap. exists e.
      split; [done|]. apply elem_of_List_filter. split; [done|].
      rewrite Hsel. simpl. by apply bool_decide_eq_true.
    + exists pr. split; [|done]. by apply elem_of_List_filter.
    + exists pj. split; [|done]. by apply elem_of_List_filter.
  - apply fetched_entries_not_null.
  - by rewrite fetched_entries_without_null.
Qed.

Lemma fetchTimeEntriesSummary_groups_witness :
  exists s,
    AdminDashboard.fetchTimeEntriesSummary Sample.fraction Sample.fraction_zero
      Sample.fraction_add Sample.fraction_div60 Sample.team_both_logged (Some Sample.alice)
    = [s]
    /\ AdminDashboard.user_id s = Sample.alice
    /\ AdminDashboard.project_id s = Sample.website
    /\ AdminDashboard.total_hours s
       = AdminDashboard.pair_total Sample.fraction Sample.fraction_zero
           Sample.fraction_add Sample.fraction_div60 Sample.alice Sample.website
           (AdminDashboard.fetched_entries Sample.team_both_logged (Some Sample.alice)).
Proof.
  eexists. split; [reflexivity|]. split; [reflexivity|]. split; [reflexivity|].
  destruct (fetchTimeEntriesSummary_groups Sample.fraction Sample.fraction_zero
              Sample.fraction_add Sample.fraction_div60 Sample.team_both_logged
              (Some Sample.alice)) as (_ & Hgroups & _).
  - intros e He. apply elem_of_cons in He as [->|He]; [reflexivity|].
    apply list_elem_of_singleton in He as ->. reflexivity.
  - destruct (Hgroups
                {| AdminDashboard.user_id := Sample.alice;
                   AdminDashboard.project_id := Sample.website;
                   AdminDashboard.total_hours :=
                     Sample.fraction_add Sample.fraction_zero (Sample.fraction_div60 60);
                   AdminDashboard.user_name := "Alice";
                   AdminDashboard.project_name := "Website" |})
      as (_ & _ & _ & _ & _ & _ & _ & _ & _ & _ & _ & Ht).
    + apply list_elem_of_here.
    + exact Ht.
Defined.

(** C9 (as stated) fails: root, an admin, may read bob's finished entry,
    but not bob's profile; the entry is skipped, and root's summary has no
    group for it. *)
Lemma summary_skips_entry :
  AdminDashboard.entry_columns
    (Sample.finished "t1" Sample.bob Sample.website 0 (60 * Sample.minute))
    ∈ AdminDashboard.fetched_entries Sample.team_bob_logged (Some Sample.root)
  /\ TimeEntry.duration_minutes
       (Sample.finished "t1" Sample.bob Sample.website 0 (60 * Sample.minute)) = Some 60
  /\ AdminDashboard.fetchTimeEntriesSummary Sample.fraction Sample.fraction_zero
       Sample.fraction_add Sample.fraction_div60 Sample.team_bob_logged (Some Sample.root)
     = [].
Proof.
  split; [apply list_elem_of_here|]. split; reflexivity.
Qed.

(** ** The dashboard's gate on the Start control

    The dashboard offers to start a timer when [runningEntry] finds no
    running entry in what [fetchTimeEntries] returned.  For a user whose
    running entries are on projects they may read, this means that the store
    holds no running entry of theirs, which is what [gated] asks of a call
    that starts a timer. *)
(** X20.  When every running entry of a user is on a project the user may
    read, and [runningEntry] finds no running entry among the entries
    [fetchTimeEntries] returned, the store holds no running entry of that
    user. *)
Lemma no_runningEntry_gated (d : db) (u : uuid) :
  (forall e, e ∈ time_entries d -> running_of u e = true ->
     exists p, p ∈ projects d /\ Project.id p = TimeEntry.project_id e
               /\ Policy.projects_select d (Some u) p = true) ->
  UserDashboard.runningEntry (UserDashboard.fetchTimeEntries d (Some u)) = None ->
  running_count d u = 0%nat.
Proof.
  intros Hreadable Hnone. unfold running_count.
  destruct (List.filter (running_of u) (time_entries d)) as [|e r] eqn:Hf; [done|].
  assert (e ∈ List.filter (running_of u) (time_entries d)) as He
    by (rewrite Hf; apply list_elem_of_here).
  apply elem_of_List_filter in He as [He Hrun].
  destruct (Hreadable e He Hrun) as (p & Hp & Hid & Hsel).
  apply andb_true_iff in Hrun as [Hown Hrunning]. apply bool_decide_eq_true in Hown.
  assert (UserDashboard.entry_columns e p ∈ UserDashboard.fetchTimeEntries d (Some u)) as Hin.
  { apply fetchTimeEntries_spec. exists e, p. repeat split; try done.
    rewrite <- Hown. apply select_own_entry. }
  apply list_elem_of_In in Hin.
  pose proof (find_none _ _ Hnone _ Hin) as Hfalse. simpl in Hfalse. congruence.
Qed.

(** ** Key constraints along a history

    The two facts about keys that the statements above assume are kept by
    every call: project ids stay distinct, and every time entry refers to a
    project of the store. *)

Lemma project_exists_ids (d : db) (project : uuid) :
  project_exists d project = true <-> project ∈ map Project.id (projects d).
Proof.
  rewrite project_exists_elem_of, list_elem_of_fmap. split.
  - intros (p & Hp & <-). by exists p.
  - intros (p & -> & Hp). by exists p.
Qed.

Lemma toggled_ids (sel : Project.row -> bool) (b : bool) (now : timestamptz)
    (l : list Project.row) :
  map Project.id (map (fun p => if sel p then with_is_active b now p else p) l)
  = map Project.id l.
Proof.
  induction l as [|p r IH]; simpl; [done|]. rewrite IH. by destruct (sel p).
Qed.

Lemma run_project_ids (d : db) (uid : option uuid) (c : call) :
  map Project.id (projects (after d (run d uid c))) = map Project.id (projects d)
  \/ exists new_id,
       (new_id ∉ map Project.id (projects d))
       /\ map Project.id (projects (after d (run d uid c)))
          = map Project.id (projects d) ++ [new_id].
Proof.
  destruct c; simpl.
  - left. destruct (UserDashboard.startTimer _ _ _ _ _ _ _) as [d'|err] eqn:Hrun; [|done].
    by apply startTimer_Ok in Hrun as (owner & _ & _ & _ & _ & ->).
  - left. rewrite stopTimer_closed. by destruct (forallb _ _).
  - left. destruct (UserDashboard.createManualEntry _ _ _ _ _) as [d'|err] eqn:Hrun; [|done].
    by apply insert_time_entry_Ok in Hrun
      as (owner & start & stop & _ & _ & _ & _ & _ & _ & _ & _ & ->).
  - unfold AdminDashboard.createProject.
    destruct (Policy.projects_write d uid); simpl; [|by left].
    destruct uid as [creator|]; [|by left].
    destruct (existsb _ (projects d)) eqn:Hfresh; simpl; [by left|].
    destruct (user_exists d creator); simpl; [|by left].
    right. exists new_id. split; [|by rewrite map_app].
    intros Hin. apply project_exists_ids in Hin. unfold project_exists in Hin. congruence.
  - left. unfold AdminDashboard.assignUserToProject.
    destruct (Policy.project_assignments_write d uid); simpl; [|done].
    destruct uid as [assigner|]; [|done].
    destruct (_ && _); simpl; [|done].
    by destruct (_ && _).
  - left. unfold AdminDashboard.toggleProjectStatus. rewrite update_where_total. simpl.
    apply toggled_ids.
Qed.

Lemma run_project_ids_unique (d : db) (uid : option uuid) (c : call) :
  NoDup (map Project.id (projects d)) ->
  NoDup (map Project.id (projects (after d (run d uid c)))).
Proof.
  intros Hnd. destruct (run_project_ids d uid c) as [-> | (new_id & Hfresh & ->)]; [done|].
  apply NoDup_app. split; [done|]. split; [|apply NoDup_singleton].
  intros x Hx Hnew. apply list_elem_of_singleton in Hnew as ->. done.
Qed.

Lemma run_project_exists (d : db) (uid : option uuid) (c : call) (project : uuid) :
  project_exists d project = true ->
  project_exists (after d (run d uid c)) project = true.
Proof.
  rewrite !project_exists_ids.
  destruct (run_project_ids d uid c) as [-> | (new_id & _ & ->)]; [done|].
  intros H. apply elem_of_app. by left.
Qed.

Lemma run_entries_have_projects (d : db) (uid : option uuid) (c : call) :
  entries_have_projects d -> entries_have_projects (after d (run d uid c)).
Proof.
  intros Hfk e He.
  assert (forall e0, e0 ∈ time_entries d ->
            project_exists (after d (run d uid c)) (TimeEntry.project_id e0) = true) as Hold
    by (intros e0 He0; by apply run_project_exists, Hfk).
  destruct c; simpl in *.
  - destruct (UserDashboard.startTimer _ _ _ _ _ _ _) as [d'|err] eqn:Hrun; simpl in *;
      [|by apply Hold].
    apply startTimer_Ok in Hrun as (owner & _ & _ & _ & Hp & ->). simpl in *.
    apply elem_of_app in He as [He|He]; [by apply Hold|].
    apply list_elem_of_singleton in He as ->. exact Hp.
  - revert He Hold. rewrite stopTimer_closed. destruct (forallb _ _); simpl;
      [|intros He Hold; by apply Hold].
    rewrite list_elem_of_fmap. intros (e0 & -> & He0) Hold.
    destruct (own_entry uid entryId e0); by apply (Hold e0).
  - destruct (UserDashboard.createManualEntry _ _ _ _ _) as [d'|err] eqn:Hrun; simpl in *;
      [|by apply Hold].
    apply insert_time_entry_Ok in Hrun
      as (owner & start & stop & _ & _ & _ & _ & _ & _ & _ & Hp & ->). simpl in *.
    apply elem_of_app in He as [He|He]; [by apply Hold|].
    apply list_elem_of_singleton in He as ->. exact Hp.
  - rewrite createProject_time_entries in He. by apply Hold.
  - rewrite assignUserToProject_time_entries in He. by apply Hold.
  - rewrite toggleProjectStatus_time_entries in He. by apply Hold.
Qed.

Lemma run_entry_ids_unique (d : db) (uid : option uuid) (c : call) :
  NoDup (map TimeEntry.id (time_entries d)) ->
  NoDup (map TimeEntry.id (time_entries (after d (run d uid c)))).
Proof.
  intros Hnd.
  assert (forall new_id row,
            fresh_entry_id d new_id = true -> TimeEntry.id row = new_id ->
            NoDup (map TimeEntry.id (time_entries d ++ [row]))) as Hfresh.
  { intros new_id row Hf Hid. rewrite map_app. simpl.
    apply NoDup_app. split; [done|]. split; [|apply NoDup_singleton].
    intros x Hx Hnew. apply list_elem_of_singleton in Hnew. subst x.
    apply list_elem_of_fmap in Hx as (e & He & Hin).
    unfold fresh_entry_id in Hf. apply negb_true_iff in Hf.
    assert (existsb (fun e0 => bool_decide (TimeEntry.id e0 = new_id)) (time_entries d) = true)
      as Hex; [|congruence].
    apply existsb_elem_of. exists e. split; [done|].
    apply bool_decide_eq_true. congruence. }
  destruct c; simpl.
  - destruct (UserDashboard.startTimer _ _ _ _ _ _ _) as [d'|err] eqn:Hrun; [|done].
    apply startTimer_Ok in Hrun as (owner & _ & Hf & _ & _ & ->). simpl.
    by apply (Hfresh new_id).
  - rewrite stopTimer_closed. destruct (forallb _ _); simpl; [|done].
    rewrite map_map.
    erewrite map_ext; [exact Hnd|]. intros e. simpl. by destruct (own_entry _ _ _).
  - destruct (UserDashboard.createManualEntry _ _ _ _ _) as [d'|err] eqn:Hrun; [|done].
    apply insert_time_entry_Ok in Hrun
      as (owner & start & stop & _ & _ & _ & _ & _ & Hf & _ & _ & ->). simpl.
    by apply (Hfresh new_id).
  - by rewrite createProject_time_entries.
  - by rewrite assignUserToProject_time_entries.
  - by rewrite toggleProjectStatus_time_entries.
Qed.

(** X21.  Every history of dashboard calls keeps project ids distinct, time
    entry ids distinct, and every time entry on a project of the store. *)
Lemma replay_key_constraints (d : db) (h : list (option uuid * call)) :
  NoDup (map Project.id (projects d)) ->
  NoDup (map TimeEntry.id (time_entries d)) ->
  entries_have_projects d ->
  NoDup (map Project.id (projects (replay d h)))
  /\ NoDup (map TimeEntry.id (time_entries (replay d h)))
  /\ entries_have_projects (replay d h).
Proof.
  revert d. induction h as [|[uid c] r IH]; intros d Hnd Hids Hfk; [done|].
  simpl. apply IH;
    [by apply run_project_ids_unique | by apply run_entry_ids_unique
     | by apply run_entries_have_projects].
Qed.

(** * Further properties of the dashboards *)

(** ** Ordering *)

Lemma insert_desc_by_perm {A} (key : A -> Z) (v : A) (l : list A) :
  insert_desc_by key v l ≡ₚ v :: l.
Proof.
  induction l as [|x r IH]; simpl; [done|].
  destruct (_ <? _); [done|]. rewrite IH. apply Permutation_swap.
Qed.

Lemma order_desc_by_perm {A} (key : A -> Z) (l : list A) : order_desc_by key l ≡ₚ l.
Proof.
  induction l as [|x r IH]; simpl; [done|].
  rewrite insert_desc_by_perm. by rewrite IH.
Qed.

Lemma insert_desc_by_sorted {A} (key : A -> Z) (v : A) (l : list A) :
  StronglySorted (fun a b => key b <= key a) l ->
  StronglySorted (fun a b => key b <= key a) (insert_desc_by key v l).
Proof.
  induction l as [|x r IH]; simpl; intros Hs.
  - apply SSorted_cons; [apply SSorted_nil | apply Forall_nil_2].
  - apply StronglySorted_inv in Hs as [Hr Hx].
    destruct (key x <? key v) eqn:Hlt.
    + apply Z.ltb_lt in Hlt. apply SSorted_cons.
      * by apply SSorted_cons.
      * apply Forall_cons. split; [lia|].
        eapply Forall_impl; [exact Hx|]. simpl. intros y Hy. lia.
    + apply Z.ltb_ge in Hlt. apply SSorted_cons; [by apply IH|].
      rewrite insert_desc_by_perm. apply Forall_cons. by split.
Qed.

Lemma order_desc_by_sorted {A} (key : A -> Z) (l : list A) :
  StronglySorted (fun a b => key b <= key a) (order_desc_by key l).
Proof.
  induction l as [|x r IH]; simpl; [apply SSorted_nil|].
  by apply insert_desc_by_sorted.
Qed.

Lemma order_start_time_desc_by (l : list UserDashboard.TimeEntry) :
  UserDashboard.order_start_time_desc l = order_desc_by UserDashboard.start_time l.
Proof.
  unfold UserDashboard.order_start_time_desc, order_desc_by.
  induction l as [|x r IH]; simpl; [done|]. rewrite IH.
  generalize (foldr (insert_desc_by UserDashboard.start_time) [] r). intros k.
  induction k as [|y k IHk]; simpl; [done|]. by rewrite IHk.
Qed.

(** X1.  The entries [fetchTimeEntries] returns are in descending order of
    [start_time]: each entry starts no earlier than every entry after it. *)
Theorem fetchTimeEntries_sorted (d : db) (uid : option uuid) :
  StronglySorted (fun a b => UserDashboard.start_time b <= UserDashboard.start_time a)
    (UserDashboard.fetchTimeEntries d uid).
Proof.
  unfold UserDashboard.fetchTimeEntries. rewrite order_start_time_desc_by.
  apply order_desc_by_sorted.
Qed.

Lemma find_sorted_latest {A} (key : A -> Z) (f : A -> bool) (l : list A) (v : A) :
  StronglySorted (fun a b => key b <= key a) l ->
  List.find f l = Some v ->
  v ∈ l /\ f v = true /\ forall w, w ∈ l -> f w = true -> key w <= key v.
Proof.
  induction l as [|x r IH]; simpl; intros Hs Hfind; [discriminate|].
  apply StronglySorted_inv in Hs as [Hr Hx].
  destruct (f x) eqn:Hfx.
  - injection Hfind as <-. split; [apply list_elem_of_here|]. split; [done|].
    intros w Hw _. apply elem_of_cons in Hw as [->|Hw]; [lia|].
    rewrite Forall_forall in Hx. by apply Hx.
  - destruct (IH Hr Hfind) as (Hin & Hfv & Hmax).
    split; [apply elem_of_cons; by right|]. split; [done|].
    intros w Hw Hfw. apply elem_of_cons in Hw as [->|Hw]; [congruence|].
    by apply Hmax.
Qed.

(** X2.  When some fetched entry is running, [runningEntry], the entry the
    Quick Timer card shows and stops, is a running entry with the latest
    [start_time] among the running ones; and it is undefined exactly when no
    fetched entry is running. *)
Theorem runningEntry_latest (d : db) (uid : option uuid) :
  (forall v,
     UserDashboard.runningEntry (UserDashboard.fetchTimeEntries d uid) = Some v ->
     v ∈ UserDashboard.fetchTimeEntries d uid
     /\ UserDashboard.is_running v = true
     /\ forall w, w ∈ UserDashboard.fetchTimeEntries d uid ->
                  UserDashboard.is_running w = true ->
                  UserDashboard.start_time w <= UserDashboard.start_time v)
  /\ (UserDashboard.runningEntry (UserDashboard.fetchTimeEntries d uid) = None <->
      forall w, w ∈ UserDashboard.fetchTimeEntries d uid ->
                UserDashboard.is_running w = false).
Proof.
  split.
  - intros v Hv. apply (find_sorted_latest UserDashboard.start_time); [|exact Hv].
    apply fetchTimeEntries_sorted.
  - unfold UserDashboard.runningEntry. split.
    + intros Hnone w Hw. apply (find_none _ _ Hnone). by apply list_elem_of_In.
    + intros Hall.
      destruct (List.find _ _) as [v|] eqn:Hfind; [|done].
      apply find_some in Hfind as [Hin Hrun]. apply list_elem_of_In in Hin.
      rewrite (Hall v Hin) in Hrun. discriminate.
Qed.

Lemma runningEntry_latest_witness :
  exists v,
    UserDashboard.runningEntry
      (UserDashboard.fetchTimeEntries (replay Sample.team Sample.alice_day)
         (Some Sample.alice)) = Some v
    /\ UserDashboard.te_id v = "t2"
    /\ UserDashboard.is_running v = true.
Proof.
  eexists. split; [reflexivity|]. split; [reflexivity|].
  exact (proj1 (proj2 (proj1 (runningEntry_latest (replay Sample.team Sample.alice_day)
                                (Some Sample.alice)) _ eq_refl))).
Defined.

(** X3.  The admin dashboard's [fetchProjects] returns exactly the projects
    the caller may read, that is all of them for an admin and the assigned
    ones otherwise, active or not, newest first. *)
Theorem admin_fetchProjects_readable (d : db) (uid : option uuid) :
  (forall p, p ∈ AdminDashboard.fetchProjects d uid <->
             p ∈ projects d
             /\ (assigned d uid (Project.id p) = true \/ has_role d uid admin = true))
  /\ StronglySorted (fun a b => Project.created_at b <= Project.created_at a)
       (AdminDashboard.fetchProjects d uid)
  /\ (has_role d uid admin = true -> AdminDashboard.fetchProjects d uid ≡ₚ projects d).
Proof.
  unfold AdminDashboard.fetchProjects. split; [|split].
  - intros p. rewrite order_desc_by_perm, elem_of_List_filter, projects_select_iff. done.
  - apply order_desc_by_sorted.
  - intros Hrole. rewrite order_desc_by_perm.
    induction (projects d) as [|p r IH]; [done|]. cbn [List.filter].
    rewrite (projects_select_admin d uid p Hrole). by rewrite IH.
Qed.

Lemma admin_fetchProjects_readable_witness :
  AdminDashboard.fetchProjects Sample.team (Some Sample.root) ≡ₚ projects Sample.team.
Proof.
  exact (proj2 (proj2 (admin_fetchProjects_readable Sample.team (Some Sample.root))) eq_refl).
Defined.

(** ** Starting and stopping, as the dashboard sees them *)

Lemma find_exists {A} (f : A -> bool) (l : list A) (x : A) :
  x ∈ l -> f x = true -> exists v, List.find f l = Some v.
Proof.
  intros Hx Hf. destruct (List.find f l) as [v|] eqn:Hfind; [by exists v|].
  apply list_elem_of_In in Hx. rewrite (find_none _ _ Hfind _ Hx) in Hf. discriminate.
Qed.

(** X4.  After a successful [startTimer] on a project its caller may read
    (assigned, or admin), the new entry is among the entries
    [fetchTimeEntries] gives the caller, running, without end and without
    duration, and [runningEntry] is defined, so the dashboard shows the Stop
    control. *)
Theorem startTimer_then_shown (d : db) (u new_id : uuid) (clock now : timestamptz)
    (projectId description : string) (d' : db) :
  UserDashboard.startTimer d (Some u) new_id clock now projectId description = Ok d' ->
  assigned d (Some u) projectId = true \/ has_role d (Some u) admin = true ->
  (exists v, v ∈ UserDashboard.fetchTimeEntries d' (Some u)
             /\ UserDashboard.te_id v = new_id
             /\ UserDashboard.is_running v = true
             /\ UserDashboard.start_time v = clock
             /\ UserDashboard.end_time v = None
             /\ UserDashboard.duration_minutes v = None)
  /\ (exists w, UserDashboard.runningEntry (UserDashboard.fetchTimeEntries d' (Some u))
                = Some w).
Proof.
  intros Hrun Hread.
  apply startTimer_Ok in Hrun as (owner & [= <-] & _ & _ & Hp & ->).
  apply project_exists_elem_of in Hp as (p & Hp & Hid).
  match goal with
  | |- context [set_time_entries d (time_entries d ++ [?r])] => set (row := r)
  end.
  assert (UserDashboard.entry_columns row p
          ∈ UserDashboard.fetchTimeEntries
              (set_time_entries d (time_entries d ++ [row])) (Some u)) as Hv.
  { apply fetchTimeEntries_spec. exists row, p. split; [|split; [exact Hp|]].
    - simpl. apply elem_of_app. right. apply list_elem_of_here.
    - split; [apply (select_own_entry _ row)|]. split; [|by split].
      apply projects_select_iff. by rewrite Hid. }
  split.
  - exists (UserDashboard.entry_columns row p). by repeat split.
  - by apply (find_exists _ _ _ Hv).
Qed.

Lemma startTimer_then_shown_witness :
  exists d' w,
    UserDashboard.startTimer Sample.team (Some Sample.alice) "t1" 10 11 Sample.website ""
    = Ok d'
    /\ UserDashboard.runningEntry (UserDashboard.fetchTimeEntries d' (Some Sample.alice))
       = Some w.
Proof.
  eexists.
  destruct (startTimer_then_shown Sample.team Sample.alice "t1" 10 11 Sample.website "" _
              eq_refl (or_introl eq_refl)) as [_ [w Hw]].
  exists w. split; [reflexivity | exact Hw].
Defined.

Lemma List_filter_none {A} (f : A -> bool) (l : list A) :
  (forall x, x ∈ l -> f x = false) -> List.filter f l = [].
Proof.
  induction l as [|x r IH]; intros H; [done|]. cbn [List.filter].
  rewrite (H x) by apply list_elem_of_here.
  apply IH. intros y Hy. apply H. apply elem_of_cons. by right.
Qed.

(** X5.  [startTimer] checks neither assignment nor [is_active]: a caller
    without the admin role who is not assigned to an existing project still
    starts a timer on it, which adds a running entry of theirs to the store;
    but [fetchTimeEntries] gives them the same entries as before, so their
    dashboard does not show the timer. *)
Theorem startTimer_unreadable_project (d : db) (u new_id : uuid) (clock now : timestamptz)
    (projectId description : string) :
  fresh_entry_id d new_id = true ->
  user_exists d u = true ->
  project_exists d projectId = true ->
  assigned d (Some u) projectId = false ->
  has_role d (Some u) admin = false ->
  exists d',
    UserDashboard.startTimer d (Some u) new_id clock now projectId description = Ok d'
    /\ running_count d' u = S (running_count d u)
    /\ UserDashboard.fetchTimeEntries d' (Some u) = UserDashboard.fetchTimeEntries d (Some u).
Proof.
  intros Hfresh Hu Hp Hassigned Hrole.
  eexists. split; [apply startTimer_Ok; exists u; by repeat split|]. split.
  - rewrite running_count_insert. unfold running_of. simpl.
    rewrite bool_decide_true by done. simpl. lia.
  - match goal with
    | |- context [set_time_entries d (time_entries d ++ [?r])] => set (row := r)
    end.
    unfold UserDashboard.fetchTimeEntries. f_equal. rewrite !joined_columns.
    change (time_entries (set_time_entries d (time_entries d ++ [row])))
      with (time_entries d ++ [row]).
    change (projects (set_time_entries d (time_entries d ++ [row]))) with (projects d).
    change (Policy.time_entries_select (set_time_entries d (time_entries d ++ [row])) (Some u))
      with (Policy.time_entries_select d (Some u)).
    change (Policy.projects_select (set_time_entries d (time_entries d ++ [row])) (Some u))
      with (Policy.projects_select d (Some u)).
    assert (List.filter
              (fun p => Policy.projects_select d (Some u) p
                        && bool_decide (Project.id p = TimeEntry.project_id row))
              (projects d) = []) as Hnone; [|
      rewrite List.filter_app, bind_app; cbn [List.filter];
      rewrite (select_own_entry d row : Policy.time_entries_select d (Some u) row = true);
      cbn [mbind list_bind]; by rewrite Hnone, !app_nil_r].
    apply List_filter_none.
    intros p _. destruct (bool_decide (Project.id p = TimeEntry.project_id row)) eqn:Hid;
      [|apply andb_false_r].
    apply bool_decide_eq_true in Hid. simpl in Hid.
    apply andb_false_iff. left. apply not_true_is_false.
    rewrite projects_select_iff, Hid. intros [H|H]; congruence.
Qed.

Lemma startTimer_unreadable_project_witness :
  exists d',
    UserDashboard.startTimer Sample.team (Some Sample.bob) "t1" 10 11 Sample.website "" = Ok d'
    /\ running_count d' Sample.bob = 1%nat
    /\ UserDashboard.fetchTimeEntries d' (Some Sample.bob) = [].
Proof.
  destruct (startTimer_unreadable_project Sample.team Sample.bob "t1" 10 11 Sample.website ""
              eq_refl eq_refl eq_refl eq_refl eq_refl) as (d' & Hrun & Hcount & Hfetch).
  exists d'. split; [exact Hrun|]. split; [exact Hcount | exact Hfetch].
Defined.

Lemma fresh_not_own (d : db) (uid : option uuid) (new_id : uuid) (e : TimeEntry.row) :
  fresh_entry_id d new_id = true -> e ∈ time_entries d -> own_entry uid new_id e = false.
Proof.
  unfold fresh_entry_id, own_entry. intros Hfresh He.
  apply negb_true_iff in Hfresh.
  destruct (bool_decide (TimeEntry.id e = new_id)) eqn:Hid; [|done].
  assert (existsb (fun e0 => bool_decide (TimeEntry.id e0 = new_id)) (time_entries d) = true)
    as Hex; [|congruence].
  apply existsb_elem_of. by exists e.
Qed.

(** X6.  Start, then stop: when [startTimer] succeeded at clock [c1] and its
    caller stops the new entry at clock [c2], with a distance that fits the
    integer column, the store holds the entries it held before the start,
    unchanged, followed by the new entry, stopped, from [c1] to [c2] with the
    rounded distance as duration; the caller has as many running entries as
    before the start. *)
Theorem start_then_stop (d d1 : db) (u new_id : uuid) (c1 n1 c2 n2 : timestamptz)
    (projectId description : string) :
  UserDashboard.startTimer d (Some u) new_id c1 n1 projectId description = Ok d1 ->
  int4_ok (minutes_between c1 c2) = true ->
  exists row,
    UserDashboard.stopTimer d1 (Some u) c2 n2 new_id
    = Ok (set_time_entries d (time_entries d ++ [row]))
    /\ TimeEntry.id row = new_id
    /\ TimeEntry.user_id row = u
    /\ TimeEntry.project_id row = projectId
    /\ TimeEntry.start_time row = c1
    /\ TimeEntry.end_time row = Some c2
    /\ TimeEntry.duration_minutes row = Some (minutes_between c1 c2)
    /\ TimeEntry.is_running row = false
    /\ running_count (set_time_entries d (time_entries d ++ [row])) u = running_count d u.
Proof.
  intros Hstart Hfit.
  apply startTimer_Ok in Hstart as (owner & [= <-] & Hfresh & _ & _ & ->).
  rewrite stopTimer_closed. simpl.
  rewrite forallb_app, map_app. simpl.
  assert (forallb (fun e => negb (own_entry (Some u) new_id e) || fits c2 e) (time_entries d)
          = true) as ->.
  { apply forallb_elem_of. intros e He. by rewrite (fresh_not_own d _ _ e Hfresh He). }
  assert (map (fun e => if own_entry (Some u) new_id e then stopped_row c2 n2 e else e)
              (time_entries d) = time_entries d) as ->.
  { transitivity (map (fun e => e) (time_entries d)); [|apply map_id].
    apply map_ext_in. intros e He. apply list_elem_of_In in He.
    by rewrite (fresh_not_own d _ _ e Hfresh He). }
  unfold own_entry, fits. simpl. rewrite !bool_decide_true by done. simpl.
  rewrite Hfit. simpl.
  eexists. split; [reflexivity|]. simpl. repeat split.
  rewrite running_count_insert. unfold running_of. simpl. rewrite andb_false_r. lia.
Qed.

Lemma start_then_stop_witness :
  exists row,
    UserDashboard.stopTimer
      (after Sample.team
         (UserDashboard.startTimer Sample.team (Some Sample.alice) "t1" 10 11
            Sample.website ""))
      (Some Sample.alice) (70 * Sample.second) 71 "t1"
    = Ok (set_time_entries Sample.team [row])
    /\ TimeEntry.duration_minutes row = Some 1
    /\ TimeEntry.is_running row = false.
Proof.
  destruct (start_then_stop Sample.team _ Sample.alice "t1" 10 11 (70 * Sample.second) 71
              Sample.website "" eq_refl eq_refl)
    as (row & Hstop & _ & _ & _ & _ & _ & Hdur & Hrun & _).
  exists row. split; [exact Hstop|]. split; [exact Hdur | exact Hrun].
Defined.

(** ** What a call leaves alone *)

Lemma filter_others_stopped (uid : option uuid) (entryId : uuid) (clock now : timestamptz)
    (l : list TimeEntry.row) :
  List.filter (fun e => negb (sql_eq uid (TimeEntry.user_id e)))
    (map (fun e => if own_entry uid entryId e then stopped_row clock now e else e) l)
  = List.filter (fun e => negb (sql_eq uid (TimeEntry.user_id e))) l.
Proof.
  induction l as [|x r IH]; [done|]. cbn [map List.filter]. rewrite IH.
  unfold own_entry. destruct (sql_eq uid (TimeEntry.user_id x)) eqn:Hx.
  - destruct (bool_decide _); simpl; by rewrite Hx.
  - rewrite andb_false_r. by rewrite Hx.
Qed.

(** X7.  Whoever calls, admin or not, and whatever the call, the time
    entries of everybody else are the same after the call as before, in the
    same order: a call creates and changes entries of its caller only. *)
Theorem calls_touch_own_entries (d : db) (uid : option uuid) (c : call) :
  List.filter (fun e => negb (sql_eq uid (TimeEntry.user_id e)))
    (time_entries (after d (run d uid c)))
  = List.filter (fun e => negb (sql_eq uid (TimeEntry.user_id e))) (time_entries d).
Proof.
  assert (forall new_id now v d',
            insert_time_entry d uid new_id now v = Ok d' ->
            List.filter (fun e => negb (sql_eq uid (TimeEntry.user_id e))) (time_entries d')
            = List.filter (fun e => negb (sql_eq uid (TimeEntry.user_id e))) (time_entries d))
    as Hinsert.
  { intros new_id now v d' Hrun.
    apply insert_time_entry_Ok in Hrun
      as (owner & start & stop & -> & _ & _ & _ & _ & _ & _ & _ & ->).
    simpl. rewrite List.filter_app. simpl. rewrite bool_decide_true by done. simpl.
    apply app_nil_r. }
  destruct c; simpl.
  - destruct (UserDashboard.startTimer _ _ _ _ _ _ _) as [d'|err] eqn:Hrun; [|done].
    by apply (Hinsert _ _ _ _ Hrun).
  - rewrite stopTimer_closed. destruct (forallb _ _); [|done]. simpl.
    apply filter_others_stopped.
  - destruct (UserDashboard.createManualEntry _ _ _ _ _) as [d'|err] eqn:Hrun; [|done].
    by apply (Hinsert _ _ _ _ Hrun).
  - by rewrite createProject_time_entries.
  - by rewrite assignUserToProject_time_entries.
  - by rewrite toggleProjectStatus_time_entries.
Qed.

Lemma run_users_unchanged (d : db) (uid : option uuid) (c : call) :
  auth_users (after d (run d uid c)) = auth_users d
  /\ profiles (after d (run d uid c)) = profiles d
  /\ user_roles (after d (run d uid c)) = user_roles d.
Proof.
  destruct c; simpl.
  - destruct (UserDashboard.startTimer _ _ _ _ _ _ _) as [d'|err] eqn:Hrun; [|done].
    by apply startTimer_Ok in Hrun as (owner & _ & _ & _ & _ & ->).
  - rewrite stopTimer_closed. by destruct (forallb _ _).
  - destruct (UserDashboard.createManualEntry _ _ _ _ _) as [d'|err] eqn:Hrun; [|done].
    by apply insert_time_entry_Ok in Hrun
      as (owner & start & stop & _ & _ & _ & _ & _ & _ & _ & _ & ->).
  - unfold AdminDashboard.createProject.
    destruct (Policy.projects_write d uid); simpl; [|done].
    destruct uid as [creator|]; [|done].
    destruct (negb _); simpl; [|done].
    by destruct (user_exists d creator).
  - unfold AdminDashboard.assignUserToProject.
    destruct (Policy.project_assignments_write d uid); simpl; [|done].
    destruct uid as [assigner|]; [|done].
    destruct (_ && _); simpl; [|done].
    by destruct (_ && _).
  - unfold AdminDashboard.toggleProjectStatus. by rewrite update_where_total.
Qed.

(** X8.  No history of dashboard calls creates a user, changes a profile,
    or grants or revokes a role: whoever is an admin before is one after,
    and nobody else is. *)
Theorem replay_keeps_users (d : db) (h : list (option uuid * call)) :
  auth_users (replay d h) = auth_users d
  /\ profiles (replay d h) = profiles d
  /\ user_roles (replay d h) = user_roles d
  /\ (forall u r, has_role (replay d h) u r = has_role d u r).
Proof.
  assert (auth_users (replay d h) = auth_users d
          /\ profiles (replay d h) = profiles d
          /\ user_roles (replay d h) = user_roles d) as (Ha & Hp & Hr).
  { revert d. induction h as [|[uid c] r IH]; intros d; [done|]. simpl.
    destruct (IH (after d (run d uid c))) as (-> & -> & ->).
    apply run_users_unchanged. }
  repeat split; try done. intros u r. unfold has_role. by rewrite Hr.
Qed.

(** ** Managing projects and assignments *)





(** X10.  An admin's [toggleProjectStatus] sets, it does not flip: the
    project with the given id ends with [is_active] the negation of the
    [currentStatus] the caller passed, whatever the store held; the other
    projects, the assignments and the time entries are as before. *)
Theorem toggleProjectStatus_sets (d : db) (uid : option uuid) (now : timestamptz)
    (projectId : string) (currentStatus : bool) :
  has_role d uid admin = true ->
  exists d',
    AdminDashboard.toggleProjectStatus d uid now projectId currentStatus = Ok d'
    /\ projects d'
       = map (fun p => if bool_decide (Project.id p = projectId)
                       then with_is_active (negb currentStatus) now p else p)
             (projects d)
    /\ (forall p, p ∈ projects d' -> Project.id p = projectId ->
                  Project.is_active p = negb currentStatus)
    /\ (forall p, p ∈ projects d' -> Project.id p <> projectId -> p ∈ projects d)
    /\ map Project.id (projects d') = map Project.id (projects d)
    /\ project_assignments d' = project_assignments d
    /\ time_entries d' = time_entries d.
Proof.
  intros Hrole. unfold AdminDashboard.toggleProjectStatus, Policy.projects_write.
  rewrite update_where_total. simpl. eexists. split; [reflexivity|]. simpl.
  assert (map (fun p => if bool_decide (Project.id p = projectId)
                              && Policy.projects_select d uid p && has_role d uid admin
                        then with_is_active (negb currentStatus) now p else p) (projects d)
          = map (fun p => if bool_decide (Project.id p = projectId)
                          then with_is_active (negb currentStatus) now p else p) (projects d))
    as ->.
  { apply map_ext. intros p.
    by rewrite (projects_select_admin d uid p Hrole), Hrole, !andb_true_r. }
  split; [done|]. split; [|split; [|split]].
  - intros p Hp Hid. apply list_elem_of_fmap in Hp as (q & -> & Hq).
    destruct (bool_decide (Project.id q = projectId)) eqn:Hq'; [done|].
    apply bool_decide_eq_false in Hq'. done.
  - intros p Hp Hid. apply list_elem_of_fmap in Hp as (q & -> & Hq).
    destruct (bool_decide (Project.id q = projectId)) eqn:Hq'; [|done].
    apply bool_decide_eq_true in Hq'. done.
  - by rewrite toggled_ids.
  - done.
Qed.

Lemma toggleProjectStatus_sets_witness :
  exists d',
    AdminDashboard.toggleProjectStatus Sample.team (Some Sample.root) 7 Sample.archive true
    = Ok d'
    /\ forall p, p ∈ projects d' -> Project.id p = Sample.archive ->
                 Project.is_active p = false.
Proof.
  destruct (toggleProjectStatus_sets Sample.team (Some Sample.root) 7 Sample.archive true
              eq_refl) as (d' & Hrun & _ & Hset & _).
  exists d'. split; [exact Hrun | exact Hset].
Defined.

(** X11.  An admin's [createProject] with a fresh id adds one project,
    active, created by the caller; and it changes the projects
    [fetchProjects] offers to no user who is neither an admin nor assigned
    to the new id: a new project is offered to a user only once assigned. *)
Theorem createProject_then_hidden (d : db) (a new_id : uuid) (now : timestamptz)
    (name description : string) :
  has_role d (Some a) admin = true ->
  project_exists d new_id = false ->
  user_exists d a = true ->
  exists d' p,
    AdminDashboard.createProject d (Some a) new_id now name description = Ok d'
    /\ projects d' = projects d ++ [p]
    /\ Project.id p = new_id
    /\ Project.name p = name
    /\ Project.description p = Some description
    /\ Project.created_by p = a
    /\ Project.is_active p = true
    /\ (forall u, has_role d (Some u) admin = false ->
                  assigned d (Some u) new_id = false ->
                  UserDashboard.fetchProjects d' (Some u)
                  = UserDashboard.fetchProjects d (Some u)).
Proof.
  intros Hrole Hfresh Ha.
  unfold AdminDashboard.createProject, Policy.projects_write.
  rewrite Hrole. simpl. unfold project_exists in Hfresh. rewrite Hfresh, Ha. simpl.
  do 2 eexists. split; [reflexivity|]. simpl. repeat split.
  intros u Hu Hassigned. unfold UserDashboard.fetchProjects. simpl.
  rewrite List.filter_app. cbn [List.filter].
  match goal with
  | |- context [Policy.projects_select ?d1 (Some u) ?p && _] =>
      change (Policy.projects_select d1 (Some u)) with (Policy.projects_select d (Some u));
      assert (Policy.projects_select d (Some u) p = false) as ->
  end.
  { apply not_true_is_false. rewrite projects_select_iff. simpl.
    intros [H|H]; congruence. }
  simpl. by rewrite app_nil_r.
Qed.

Lemma createProject_then_hidden_witness :
  exists d',
    AdminDashboard.createProject Sample.team (Some Sample.root) "p9" 7 "Shop" "" = Ok d'
    /\ UserDashboard.fetchProjects d' (Some Sample.bob)
       = UserDashboard.fetchProjects Sample.team (Some Sample.bob).
Proof.
  destruct (createProject_then_hidden Sample.team Sample.root "p9" 7 "Shop" ""
              eq_refl eq_refl eq_refl)
    as (d' & p & Hrun & _ & _ & _ & _ & _ & _ & Hhidden).
  exists d'. split; [exact Hrun|]. by apply Hhidden.
Defined.

Lemma assignUserToProject_Ok (d : db) (uid : option uuid) (new_id : uuid) (now : timestamptz)
    (project u : uuid) (d' : db) :
  AdminDashboard.assignUserToProject d uid new_id now project u = Ok d' ->
  exists a,
    uid = Some a /\ has_role d uid admin = true
    /\ assignment_exists d project u = false
    /\ project_exists d project = true /\ user_exists d u = true
    /\ d' = set_project_assignments d
              (project_assignments d ++
               [ {| Assignment.id := new_id; Assignment.project_id := project;
                    Assignment.user_id := u; Assignment.assigned_by := a;
                    Assignment.created_at := now |} ]).
Proof.
  unfold AdminDashboard.assignUserToProject, Policy.project_assignments_write.
  destruct (has_role d uid admin) eqn:Hrole; simpl; [|discriminate].
  destruct uid as [a|]; [|discriminate].
  destruct (negb (existsb _ _)) eqn:Hid; simpl; [|discriminate].
  destruct (assignment_exists d project u) eqn:Hex; simpl; [discriminate|].
  destruct (project_exists d project) eqn:Hp; simpl; [|discriminate].
  destruct (user_exists d u) eqn:Hu; simpl; [|discriminate].
  destruct (user_exists d a); simpl; [|discriminate].
  intros [= <-]. by exists a.
Qed.

(** X12.  Once [assignUserToProject] has succeeded for a user and a
    project, that user's [fetchProjects] offers the project if it is active,
    and that user's [fetchTimeEntries] returns every entry they logged on
    it. *)
Theorem assign_then_offered (d : db) (uid : option uuid) (new_id : uuid) (now : timestamptz)
    (project u : uuid) (d' : db) :
  AdminDashboard.assignUserToProject d uid new_id now project u = Ok d' ->
  (forall p, p ∈ projects d -> Project.id p = project -> Project.is_active p = true ->
     UserDashboard.project_columns p ∈ UserDashboard.fetchProjects d' (Some u))
  /\ (forall e p, e ∈ time_entries d -> TimeEntry.user_id e = u ->
        TimeEntry.project_id e = project ->
        p ∈ projects d -> Project.id p = project ->
        UserDashboard.entry_columns e p ∈ UserDashboard.fetchTimeEntries d' (Some u)).
Proof.
  intros Hrun. apply assignUserToProject_Ok in Hrun as (a & _ & _ & _ & _ & _ & ->).
  assert (forall p, Project.id p = project ->
            Policy.projects_select
              (set_project_assignments d
                 (project_assignments d ++
                  [ {| Assignment.id := new_id; Assignment.project_id := project;
                       Assignment.user_id := u; Assignment.assigned_by := a;
                       Assignment.created_at := now |} ])) (Some u) p = true) as Hsel.
  { intros p Hid. apply projects_select_iff. left. unfold assigned. simpl.
    rewrite existsb_app. simpl. rewrite Hid, !bool_decide_true by done.
    simpl. apply orb_true_r. }
  split.
  - intros p Hp Hid Hact. unfold UserDashboard.fetchProjects.
    apply list_elem_of_fmap. exists p. split; [done|].
    apply elem_of_List_filter. split; [done|]. by rewrite (Hsel p Hid), Hact.
  - intros e p He Hu Hpid Hp Hid. apply fetchTimeEntries_spec.
    exists e, p. repeat split; try done.
    + rewrite <- Hu. apply (select_own_entry _ e).
    + by apply Hsel.
    + congruence.
Qed.

Lemma assign_then_offered_witness :
  exists d',
    AdminDashboard.assignUserToProject Sample.team_bob_logged (Some Sample.root) "a9" 7
      Sample.website Sample.bob = Ok d'
    /\ UserDashboard.project_columns (Sample.project_of Sample.website "Website" true)
       ∈ UserDashboard.fetchProjects d' (Some Sample.bob)
    /\ UserDashboard.entry_columns
         (Sample.finished "t1" Sample.bob Sample.website 0 (60 * Sample.minute))
         (Sample.project_of Sample.website "Website" true)
       ∈ UserDashboard.fetchTimeEntries d' (Some Sample.bob).
Proof.
  eexists. split; [reflexivity|].
  destruct (assign_then_offered Sample.team_bob_logged (Some Sample.root) "a9" 7
              Sample.website Sample.bob _ eq_refl) as [Hoffer Hentries].
  split.
  - apply Hoffer; [apply list_elem_of_here | reflexivity | reflexivity].
  - apply Hentries; try reflexivity; apply list_elem_of_here.
Defined.

(** ** The user list *)

Lemma filter_unique_key {A} (key : A -> uuid) (k : option uuid) (l : list A) :
  NoDup (map key l) ->
  (length (List.filter (fun x => sql_eq k (key x)) l) <= 1)%nat.
Proof.
  induction l as [|x r IH]; simpl; intros Hnd; [lia|].
  apply NoDup_cons in Hnd as [Hx Hnd]. specialize (IH Hnd).
  destruct (sql_eq k (key x)) eqn:Hk; [|done]. simpl.
  apply sql_eq_true in Hk.
  rewrite List_filter_none; [simpl; lia|].
  intros y Hy. apply not_true_is_false. rewrite sql_eq_true. intros Hy'.
  apply Hx. apply list_elem_of_fmap. exists y. split; [congruence|done].
Qed.

(** X13.  [fetchUsers] returns nothing but the caller's own profile, also
    to an admin: every user it returns has the caller's id, there is none
    without a session, and (a profile per user) there is at most one. *)
Theorem fetchUsers_own (d : db) (uid : option uuid) :
  (forall x, x ∈ AdminDashboard.fetchUsers d uid -> uid = Some (AdminDashboard.u_id x))
  /\ (uid = None -> AdminDashboard.fetchUsers d uid = [])
  /\ (NoDup (map Profile.user_id (profiles d)) ->
      (length (AdminDashboard.fetchUsers d uid) <= 1)%nat).
Proof.
  unfold AdminDashboard.fetchUsers. split; [|split].
  - intros x Hx. apply list_elem_of_fmap in Hx as (p & -> & Hp).
    apply elem_of_List_filter in Hp as [_ Hp]. by apply sql_eq_true in Hp.
  - intros ->. by rewrite List_filter_none.
  - intros Hnd. rewrite length_map. by apply filter_unique_key.
Qed.

Lemma fetchUsers_own_witness :
  (length (AdminDashboard.fetchUsers Sample.team (Some Sample.root)) <= 1)%nat
  /\ AdminDashboard.fetchUsers Sample.team None = [].
Proof.
  destruct (fetchUsers_own Sample.team (Some Sample.root)) as (_ & _ & Hone).
  destruct (fetchUsers_own Sample.team None) as (_ & Hnone & _).
  split; [|by apply Hnone].
  apply Hone. apply (bool_decide_unpack _). vm_compute. exact I.
Defined.

(** ** Names *)

Lemma string_app_assoc (a b c : string) : ((a ++ b) ++ c = a ++ (b ++ c))%string.
Proof.
  induction a as [|x a IH]; [done|].
  change (String x ((a ++ b) ++ c) = String x (a ++ (b ++ c)))%string. by rewrite IH.
Qed.

Lemma trim_start_length (s : string) : (String.length (trim_start s) <= String.length s)%nat.
Proof.
  induction s as [|c r IH]; simpl; [done|]. destruct (is_space c); simpl; lia.
Qed.

Lemma trim_start_keeps (f x : string) :
  trim_start f = f -> f <> "" -> trim_start (f ++ x) = (f ++ x)%string.
Proof.
  destruct f as [|c r]; [done|]. simpl. intros Hf _.
  destruct (is_space c); [|done].
  pose proof (trim_start_length r) as Hlen. rewrite Hf in Hlen. simpl in Hlen. lia.
Qed.

Lemma trim_end_keeps (y l : string) :
  trim_end l = l -> l <> "" -> trim_end (y ++ l) = (y ++ l)%string.
Proof.
  intros Hl Hne. induction y as [|c y IH]; [exact Hl|].
  change (trim_end (String c (y ++ l)) = String c (y ++ l))%string.
  cbn [trim_end]. rewrite IH. destruct (y ++ l)%string eqn:Hyl; [|done].
  destruct y; [by destruct Hne | discriminate Hyl].
Qed.

Lemma trim_start_space (f : string) :
  trim_start (f ++ " ")
  = if bool_decide (trim_start f = "") then ""%string else (trim_start f ++ " ")%string.
Proof.
  induction f as [|c r IH]; simpl; [done|].
  destruct (is_space c); [exact IH|]. by rewrite bool_decide_false.
Qed.

Lemma trim_end_space (s : string) : trim_end (s ++ " ") = trim_end s.
Proof. induction s as [|c r IH]; simpl; [done|]. by rewrite IH. Qed.

Lemma trim_space (f : string) : trim (f ++ " ") = trim f.
Proof.
  unfold trim. rewrite trim_start_space. case_bool_decide as Hf.
  - by rewrite Hf.
  - apply trim_end_space.
Qed.

Lemma or_empty_falsy (x : option string) :
  AdminDashboard.truthy x = false -> or_empty x = "".
Proof.
  destruct x as [s|]; simpl; [|done]. intros Hs. apply negb_false_iff in Hs.
  apply bool_decide_eq_true in Hs. by subst s.
Qed.

Lemma or_empty_Some (s : string) : or_empty (Some s) = s.
Proof.
  unfold or_empty, or_string. simpl. case_bool_decide; by subst.
Qed.

(** X14.  The label of a user in the admin's selects and the name of the
    same profile in the summary agree when both names are missing (the
    email) and when both are present without white space around them (first
    name, space, last name); for a profile with a first name only they
    differ, the select showing the email and the summary the first name. *)
Theorem user_label_display_name (profile : Profile.row) :
  (AdminDashboard.truthy (Profile.first_name profile) = false ->
   AdminDashboard.truthy (Profile.last_name profile) = false ->
   AdminDashboard.user_label (AdminDashboard.user_columns profile) = Profile.email profile
   /\ AdminDashboard.display_name profile = Profile.email profile)
  /\ (forall f l,
        Profile.first_name profile = Some f -> Profile.last_name profile = Some l ->
        f <> "" -> l <> "" -> trim_start f = f -> trim_end l = l ->
        AdminDashboard.user_label (AdminDashboard.user_columns profile)
        = (f ++ " " ++ l)%string
        /\ AdminDashboard.display_name profile = (f ++ " " ++ l)%string)
  /\ (forall f,
        Profile.first_name profile = Some f ->
        AdminDashboard.truthy (Profile.last_name profile) = false ->
        trim f <> "" ->
        AdminDashboard.user_label (AdminDashboard.user_columns profile)
        = Profile.email profile
        /\ AdminDashboard.display_name profile = trim f).
Proof.
  unfold AdminDashboard.user_label, AdminDashboard.display_name. simpl.
  split; [|split].
  - intros Hf Hl. rewrite Hf, (or_empty_falsy _ Hf), (or_empty_falsy _ Hl). done.
  - intros f l Hf Hl Hfne Hlne Hfs Hle. rewrite Hf, Hl, !or_empty_Some. simpl.
    rewrite !bool_decide_false by done. simpl. split; [done|].
    assert (trim (f ++ " " ++ l) = (f ++ " " ++ l)%string) as ->.
    { unfold trim. rewrite (trim_start_keeps f _ Hfs Hfne).
      rewrite <- string_app_assoc. by apply trim_end_keeps. }
    unfold or_string. rewrite bool_decide_false; [done|].
    destruct f; [done | discriminate].
  - intros f Hf Hl Hne. rewrite Hl, andb_false_r. split; [done|].
    rewrite Hf, or_empty_Some, (or_empty_falsy _ Hl).
    change (f ++ " " ++ "")%string with (f ++ " ")%string.
    rewrite trim_space. unfold or_string. by rewrite bool_decide_false.
Qed.

Lemma user_label_display_name_witness :
  AdminDashboard.user_label
    (AdminDashboard.user_columns
       (Sample.profile_of "p2" Sample.alice "alice@example.org" (Some "Alice") None))
  = "alice@example.org"
  /\ AdminDashboard.display_name
       (Sample.profile_of "p2" Sample.alice "alice@example.org" (Some "Alice") None)
     = "Alice".
Proof.
  apply (proj2 (proj2 (user_label_display_name
                         (Sample.profile_of "p2" Sample.alice "alice@example.org"
                            (Some "Alice") None))) "Alice"); [reflexivity.. | discriminate].
Defined.

(** ** Roles and sign-up *)

(** X15.  [get_current_user_role] answers with a role the caller holds, and
    with null exactly when the caller holds none. *)
Theorem get_current_user_role_held (d : db) (uid : option uuid) :
  (forall r, get_current_user_role d uid = Some r -> has_role d uid r = true)
  /\ (get_current_user_role d uid = None <-> forall r, has_role d uid r = false).
Proof.
  unfold get_current_user_role, has_role. split.
  - intros r Hr. destruct (List.find _ _) as [x|] eqn:Hfind; [|discriminate].
    injection Hr as <-. apply find_some in Hfind as [Hin Hx].
    apply existsb_elem_of. exists x. split; [by apply list_elem_of_In|].
    by rewrite Hx, bool_decide_true.
  - split.
    + intros Hnone r. destruct (List.find _ _) as [x|] eqn:Hfind; [discriminate|].
      apply not_true_is_false. rewrite existsb_elem_of. intros (x & Hin & Hx).
      apply andb_true_iff in Hx as [Hx _]. apply list_elem_of_In in Hin.
      rewrite (find_none _ _ Hfind x Hin) in Hx. discriminate.
    + intros Hall. destruct (List.find _ _) as [x|] eqn:Hfind; [|done].
      apply find_some in Hfind as [Hin Hx].
      specialize (Hall (UserRole.role x)).
      assert (existsb (fun r => sql_eq uid (UserRole.user_id r)
                                && bool_decide (UserRole.role r = UserRole.role x))
                      (user_roles d) = true) as Hex; [|congruence].
      apply existsb_elem_of. exists x. split; [by apply list_elem_of_In|].
      by rewrite Hx, bool_decide_true.
Qed.

Lemma get_current_user_role_held_witness :
  get_current_user_role Sample.team (Some Sample.alice) = Some user
  /\ has_role Sample.team (Some Sample.alice) user = true.
Proof.
  split; [reflexivity|].
  exact (proj1 (get_current_user_role_held Sample.team (Some Sample.alice)) user eq_refl).
Defined.

Lemma handle_new_user_Ok (d : db) (NEW : NewUser.t) (profile_id role_id : uuid)
    (now : timestamptz) (d' : db) :
  handle_new_user d NEW profile_id role_id now = Ok d' ->
  exists mail,
    NewUser.email NEW = Some mail
    /\ (forall p, p ∈ profiles d -> Profile.user_id p <> NewUser.id NEW)
    /\ profiles d'
       = profiles d ++
         [ {| Profile.id := profile_id; Profile.user_id := NewUser.id NEW;
              Profile.email := mail; Profile.first_name := NewUser.first_name NEW;
              Profile.last_name := NewUser.last_name NEW;
              Profile.created_at := now; Profile.updated_at := now |} ]
    /\ user_roles d'
       = user_roles d ++
         [ {| UserRole.id := role_id; UserRole.user_id := NewUser.id NEW;
              UserRole.role := user; UserRole.created_at := now |} ]
    /\ auth_users d' = auth_users d /\ projects d' = projects d
    /\ project_assignments d' = project_assignments d
    /\ time_entries d' = time_entries d.
Proof.
  unfold handle_new_user. destruct (NewUser.email NEW) as [mail|]; [|discriminate].
  destruct (existsb _ (profiles d)) eqn:Hp; simpl; [discriminate|].
  destruct (user_exists d (NewUser.id NEW)); simpl; [|discriminate].
  destruct (existsb _ (user_roles d)); simpl; [discriminate|].
  intros [= <-]. exists mail. simpl. repeat split.
  intros p Hin Hid.
  assert (existsb (fun p0 => bool_decide (Profile.id p0 = profile_id)
                             || bool_decide (Profile.user_id p0 = NewUser.id NEW))
                  (profiles d) = true) as Hex; [|congruence].
  apply existsb_elem_of. exists p. split; [done|].
  rewrite (bool_decide_true _ Hid). apply orb_true_r.
Qed.

(** X16.  When [handle_new_user] succeeds for a new account, the account
    holds the role [user] and a profile with its email and names, which
    [fetchUsers] returns to it; who is an admin is as before; projects,
    assignments and time entries are untouched; an account that was assigned
    to nothing and is no admin is offered no project; and a second run for
    the same account fails on the unique constraints. *)
Theorem handle_new_user_effect (d : db) (NEW : NewUser.t) (profile_id role_id : uuid)
    (now : timestamptz) (d' : db) :
  handle_new_user d NEW profile_id role_id now = Ok d' ->
  has_role d' (Some (NewUser.id NEW)) user = true
  /\ (forall u, has_role d' u admin = has_role d u admin)
  /\ (exists mail,
        NewUser.email NEW = Some mail
        /\ {| AdminDashboard.u_id := NewUser.id NEW; AdminDashboard.u_email := mail;
              AdminDashboard.u_first_name := NewUser.first_name NEW;
              AdminDashboard.u_last_name := NewUser.last_name NEW |}
           ∈ AdminDashboard.fetchUsers d' (Some (NewUser.id NEW)))
  /\ projects d' = projects d
  /\ project_assignments d' = project_assignments d
  /\ time_entries d' = time_entries d
  /\ ((forall p, assigned d (Some (NewUser.id NEW)) p = false) ->
      has_role d (Some (NewUser.id NEW)) admin = false ->
      UserDashboard.fetchProjects d' (Some (NewUser.id NEW)) = [])
  /\ (forall profile_id2 role_id2 now2,
        handle_new_user d' NEW profile_id2 role_id2 now2 = Err unique_violation).
Proof.
  intros Hrun.
  destruct (handle_new_user_Ok _ _ _ _ _ _ Hrun)
    as (mail & Hmail & _ & Hprofiles & Hroles & _ & Hprojects & Hassignments & Hentries).
  assert (forall u, has_role d' u admin = has_role d u admin) as Hadmin.
  { intros u. unfold has_role. rewrite Hroles, existsb_app. simpl.
    by rewrite ?andb_false_r, ?orb_false_r. }
  split; [|split; [exact Hadmin|split; [|split; [done|split; [done|split; [done|split]]]]]].
  - unfold has_role. rewrite Hroles, existsb_app. simpl.
    rewrite !bool_decide_true by done. simpl. apply orb_true_r.
  - exists mail. split; [done|]. unfold AdminDashboard.fetchUsers.
    apply list_elem_of_fmap. eexists. split; [|apply elem_of_List_filter; split].
    2:{ rewrite Hprofiles. apply elem_of_app. right. apply list_elem_of_here. }
    + reflexivity.
    + unfold Policy.profiles_select. simpl. by rewrite bool_decide_true.
  - intros Hnone Hrole. unfold UserDashboard.fetchProjects.
    rewrite List_filter_none; [done|].
    intros p _. apply andb_false_iff. left. apply not_true_is_false.
    rewrite projects_select_iff, Hadmin, Hrole. unfold assigned. rewrite Hassignments.
    fold (assigned d (Some (NewUser.id NEW)) (Project.id p)). rewrite Hnone.
    intros [H|H]; discriminate.
  - intros profile_id2 role_id2 now2. unfold handle_new_user. rewrite Hmail.
    rewrite Hprofiles, existsb_app. simpl.
    rewrite (bool_decide_true (NewUser.id NEW = NewUser.id NEW)) by done.
    by rewrite !orb_true_r.
Qed.

Lemma handle_new_user_effect_witness :
  exists d',
    handle_new_user Sample.team_with_carol Sample.carol_row "p4" "r5" 7 = Ok d'
    /\ has_role d' (Some Sample.carol) user = true
    /\ has_role d' (Some Sample.carol) admin = false
    /\ UserDashboard.fetchProjects d' (Some Sample.carol) = [].
Proof.
  eexists. split; [reflexivity|].
  destruct (handle_new_user_effect Sample.team_with_carol Sample.carol_row "p4" "r5" 7 _
              eq_refl) as (Huser & Hadmin & _ & _ & _ & _ & Hnone & _).
  split; [exact Huser|]. split; [by rewrite Hadmin|].
  apply Hnone; [|reflexivity]. intros p. unfold assigned. simpl.
  rewrite !andb_false_r. reflexivity.
Defined.

(** ** Showing a duration *)

(** X17.  [formatDuration] writes "0h 0m" for a null and for a zero
    duration.  For a positive duration it writes hours and minutes that add
    up to it, with fewer than 60 minutes.  For a negative duration (the
    store accepts entries that end before they start) the minutes carry the
    sign and the hours are rounded down, so that, unless the duration is a
    whole number of hours, the text reads one hour less than the duration. *)
Theorem formatDuration_parts :
  UserDashboard.formatDuration None = "0h 0m"
  /\ UserDashboard.formatDuration (Some 0) = "0h 0m"
  /\ (forall m, 0 < m ->
        exists h r,
          UserDashboard.formatDuration (Some m)
          = (pretty h ++ "h " ++ pretty r ++ "m")%string
          /\ m = 60 * h + r /\ 0 <= h /\ 0 <= r < 60)
  /\ (forall m, m < 0 ->
        exists h r,
          UserDashboard.formatDuration (Some m)
          = (pretty h ++ "h " ++ pretty r ++ "m")%string
          /\ h < 0 /\ -60 < r <= 0
          /\ (r = 0 -> m = 60 * h)
          /\ (r <> 0 -> m = 60 * (h + 1) + r)).
Proof.
  split; [done|]. split; [done|]. split.
  - intros m Hm. exists (m / 60), (Z.rem m 60).
    unfold UserDashboard.formatDuration. rewrite bool_decide_false by lia.
    split; [done|]. Z.to_euclidean_division_equations. lia.
  - intros m Hm. exists (m / 60), (Z.rem m 60).
    unfold UserDashboard.formatDuration. rewrite bool_decide_false by lia.
    split; [done|]. Z.to_euclidean_division_equations. lia.
Qed.

Lemma formatDuration_parts_witness :
  UserDashboard.formatDuration (Some 125) = "2h 5m"
  /\ UserDashboard.formatDuration (Some (-5)) = "-1h -5m"
  /\ exists h r, UserDashboard.formatDuration (Some 125)
                 = (pretty h ++ "h " ++ pretty r ++ "m")%string
                 /\ 125 = 60 * h + r.
Proof.
  split; [reflexivity|]. split; [reflexivity|].
  destruct (proj1 (proj2 (proj2 formatDuration_parts)) 125 eq_refl)
    as (h & r & Htext & Hsum & _).
  by exists h, r.
Defined.

(** ** The exported file *)




(** ** Rejected manual entries *)



(** ** Witnesses of the gate and of the key constraints *)

Lemma no_runningEntry_gated_witness :
  running_count Sample.team_alice_logged Sample.alice = 0%nat.
Proof.
  apply no_runningEntry_gated; [|reflexivity].
  intros e He Hrun. apply list_elem_of_singleton in He. subst e. discriminate Hrun.
Defined.

Lemma replay_key_constraints_witness :
  NoDup (map Project.id (projects (replay Sample.team Sample.alice_day)))
  /\ NoDup (map TimeEntry.id (time_entries (replay Sample.team Sample.alice_day)))
  /\ entries_have_projects (replay Sample.team Sample.alice_day).
Proof.
  apply replay_key_constraints.
  - apply (bool_decide_unpack _). vm_compute. exact I.
  - apply NoDup_nil_2.
  - intros e He. by apply elem_of_nil in He.
Defined.
